(** * py_heideltime: the HeidelTime command-line wrapper

    A shallow embedding of [python_heidelTime.py] (class [HeidelTime]) and
    the properties of its configuration, validation, command construction
    and temporary-file handling.

    Conventions of the embedding.
    - A Python [str] is a [string]; each character stands for the code
      point of the same number (the model keeps code points below 256).
    - [bytes] are [list byte].
    - A configuration [dict] is a [gmap string PyVal].
    - A method of the class is a function from the object to an outcome and
      the object after the call; [parse] also threads the state of the
      machine (file system and the log of child processes).
    - What the interpreter and the operating system decide (codec registry,
      current directory, temporary names, the child process, the clock) is
      a [World]. *)

From Stdlib Require Import ZArith Ascii String List Lia.
From Stdlib.Strings Require Import Byte.
From stdpp Require Import base decidable option list strings gmap fin_maps.

Local Open Scope string_scope.
Local Open Scope Z_scope.
Local Open Scope list_scope.

(** ** Python values *)

Module Py.

(** Scalar values a configuration holds. *)
Inductive PyVal :=
| VNone
| VBool (b : bool)
| VInt (z : Z)
| VStr (s : string).

#[global] Instance PyVal_eq_dec : EqDecision PyVal.
Proof. solve_decision. Defined.

(** Truth value testing ([if x:]). *)
Definition truthy (v : PyVal) : bool :=
  match v with
  | VNone => false
  | VBool b => b
  | VInt z => negb (z =? 0)
  | VStr s => negb (String.eqb s "")
  end.

(** Exceptions.  Those the wrapper raises itself carry their message;
    [Builtin cls] is an exception of class [cls] raised inside the Python
    library, its message not modelled. *)
Inductive exn :=
| ValueError (msg : string)
| FileNotFoundError (msg : string)
| RuntimeError (msg : string)
| TypeError (msg : string)
| Builtin (cls : string).

#[global] Instance exn_eq_dec : EqDecision exn.
Proof. solve_decision. Defined.

Inductive result (A : Type) :=
| Ok (a : A)
| Raise (e : exn).
Arguments Ok {A} a.
Arguments Raise {A} e.

Definition bind {A B} (r : result A) (k : A -> result B) : result B :=
  match r with
  | Ok a => k a
  | Raise e => Raise e
  end.

(** [dict.get(key, default)]: the default only when the key is absent. *)
Definition dict_get (d : gmap string PyVal) (k : string) (default : PyVal) : PyVal :=
  match d !! k with
  | Some v => v
  | None => default
  end.

(** *** str *)

Definition code (c : ascii) : Z := Z.of_N (N_of_ascii c).
Definition chr (z : Z) : ascii := ascii_of_N (Z.to_N z).

(** [str.lower] on code points below 256: A-Z, and the Latin-1 capitals
    U+00C0..U+00DE except the multiplication sign U+00D7, move up by 32. *)
Definition lower_char (c : ascii) : ascii :=
  let n := code c in
  if ((65 <=? n) && (n <=? 90)) || ((192 <=? n) && (n <=? 222) && negb (n =? 215))
  then chr (n + 32) else c.

Fixpoint lower (s : string) : string :=
  match s with
  | EmptyString => EmptyString
  | String c r => String (lower_char c) (lower r)
  end.

(** [sep.join(l)] *)
Fixpoint join (sep : string) (l : list string) : string :=
  match l with
  | [] => ""
  | [x] => x
  | x :: r => x +:+ sep +:+ join sep r
  end.

(** [repr] of a list of plain strings, as an f-string prints it. *)
Definition repr_list (l : list string) : string :=
  "[" +:+ join ", " (map (fun s => "'" +:+ s +:+ "'") l) +:+ "]".

(** [s.split(sep)] for a one-character separator. *)
Fixpoint split (sep : ascii) (s : string) : list string :=
  match s with
  | EmptyString => [EmptyString]
  | String c r =>
      if Ascii.eqb c sep then EmptyString :: split sep r
      else match split sep r with
           | [] => [String c EmptyString]
           | h :: t => String c h :: t
           end
  end.

Definition digit_char (d : Z) : ascii := chr (48 + d).

(** [needle in haystack] on strings. *)
Fixpoint contains (needle hay : string) : bool :=
  String.prefix needle hay ||
  match hay with
  | EmptyString => false
  | String _ r => contains needle r
  end.

End Py.
Export Py.

Notation "x <- c ;; k" := (bind c (fun x => k))
  (at level 100, c at next level, right associativity).


(** ** pathlib on a POSIX system *)

Module Pathlib.

(** A pure path: its root ("", "/" or "//") and its components. *)
Record PurePath := mkPath { root : string; parts : list string }.

#[global] Instance PurePath_eq_dec : EqDecision PurePath.
Proof. solve_decision. Defined.

(** The root of a path string: one slash, or two when the string starts
    with exactly two. *)
Definition root_of (s : string) : string :=
  match s with
  | String "/" (String "/" (String "/" _)) => "/"
  | String "/" (String "/" _) => "//"
  | String "/" _ => "/"
  | _ => ""
  end.

Definition is_component (x : string) : bool :=
  negb (String.eqb x "") && negb (String.eqb x ".").

(** A single component: not empty, not ".", no slash. *)
Definition is_name (x : string) : bool :=
  is_component x && forallb (fun c => negb (Ascii.eqb c "/")) (list_ascii_of_string x).

(** [Path(s)]: empty and "." components are dropped. *)
Definition Path (s : string) : PurePath :=
  {| root := root_of s; parts := List.filter is_component (split "/" s) |}.

Definition is_absolute (p : PurePath) : bool := negb (String.eqb (root p) "").

(** [p / s]: an absolute right operand replaces the left one. *)
Definition truediv (p : PurePath) (s : string) : PurePath :=
  let q := Path s in
  if is_absolute q then q
  else {| root := root p; parts := parts p ++ parts q |}.

(** [str(p)], which is also [p.as_posix()] here. *)
Definition as_posix (p : PurePath) : string :=
  match root p, parts p with
  | EmptyString, [] => "."
  | r, l => r +:+ join "/" l
  end.

(** [p.absolute()], from the current directory [cwd]. *)
Definition absolute (cwd : string) (p : PurePath) : PurePath :=
  if is_absolute p then p
  else {| root := root (Path cwd); parts := parts (Path cwd) ++ parts p |}.

(** [Path(v)] on a configuration value: only a [str] is path-like. *)
Definition py_Path (v : PyVal) : result PurePath :=
  match v with
  | VStr s => Ok (Path s)
  | _ => Raise (Builtin "TypeError")
  end.

End Pathlib.
Export Pathlib.

Infix "//" := truediv (at level 40, left associativity).

(** ** datetime *)

Module Datetime.

Record date := mkDate { year : Z; month : Z; day : Z }.

#[global] Instance date_eq_dec : EqDecision date.
Proof. solve_decision. Defined.

Definition is_leap (y : Z) : bool :=
  (y mod 4 =? 0) && (negb (y mod 100 =? 0) || (y mod 400 =? 0)).

Definition days_in_month (y m : Z) : Z :=
  if m =? 2 then (if is_leap y then 29 else 28)
  else if (m =? 4) || (m =? 6) || (m =? 9) || (m =? 11) then 30
  else 31.

(** The check of the [date] constructor. *)
Definition valid_date (d : date) : bool :=
  (1 <=? year d) && (year d <=? 9999) &&
  (1 <=? month d) && (month d <=? 12) &&
  (1 <=? day d) && (day d <=? days_in_month (year d) (month d)).

(** *** strptime

    [_strptime] turns the format into a regular expression and matches it
    at the start of the string; the directives used here are
    [%Y = \d\d\d\d], [%y = \d\d], [%m = 1[0-2]|0[1-9]|[1-9]] and
    [%d = 3[0-1]|[1-2]\d|0[1-9]|[1-9]| [1-9]]; among the code points of
    the model [\d] is one of 0-9.  Each matcher takes the
    rest of the expression as a continuation, so alternatives are tried in
    order with backtracking. *)

Definition digit (c : ascii) : option Z :=
  let n := code c in
  if (48 <=? n) && (n <=? 57) then Some (n - 48) else None.

Definition digit_in (lo hi : Z) (c : ascii) : option Z :=
  match digit c with
  | Some d => if (lo <=? d) && (d <=? hi) then Some d else None
  | None => None
  end.

Definition orelse {A} (x y : option A) : option A :=
  match x with
  | Some _ => x
  | None => y
  end.

Section Regex.
Context {A : Type}.

Definition lit (c : ascii) (k : string -> option A) (s : string) : option A :=
  match s with
  | String c' r => if Ascii.eqb c c' then k r else None
  | EmptyString => None
  end.

(** Two characters: the first in [lo1..hi1], the second in [lo2..hi2]. *)
Definition two (lo1 hi1 lo2 hi2 : Z) (k : Z -> string -> option A) (s : string) : option A :=
  match s with
  | String c1 (String c2 r) =>
      match digit_in lo1 hi1 c1, digit_in lo2 hi2 c2 with
      | Some a, Some b => k (10 * a + b) r
      | _, _ => None
      end
  | _ => None
  end.

Definition one (lo hi : Z) (k : Z -> string -> option A) (s : string) : option A :=
  match s with
  | String c r =>
      match digit_in lo hi c with
      | Some a => k a r
      | None => None
      end
  | EmptyString => None
  end.

Definition re_Y (k : Z -> string -> option A) : string -> option A :=
  two 0 9 0 9 (fun hi => two 0 9 0 9 (fun lo => k (100 * hi + lo))).

Definition re_y (k : Z -> string -> option A) : string -> option A :=
  two 0 9 0 9 k.

Definition re_m (k : Z -> string -> option A) (s : string) : option A :=
  orelse (two 1 1 0 2 k s) (orelse (two 0 0 1 9 k s) (one 1 9 k s)).

Definition re_d (k : Z -> string -> option A) (s : string) : option A :=
  orelse (two 3 3 0 1 k s)
    (orelse (two 1 2 0 9 k s)
       (orelse (two 0 0 1 9 k s)
          (orelse (one 1 9 k s) (lit " " (one 1 9 k) s)))).
End Regex.

(** The match of ["<year>/%m/%d"]: the fields and the unconverted rest. *)
Definition match_format (re_year : (Z -> string -> option (date * string)) -> string -> option (date * string))
    (s : string) : option (date * string) :=
  re_year (fun y => lit "/" (re_m (fun m => lit "/" (re_d (fun d rest =>
    Some (mkDate y m d, rest)))))) s.

(** A two-digit year: 69-99 are 1969-1999, 00-68 are 2000-2068. *)
Definition century (y : Z) : Z := if y <=? 68 then y + 2000 else y + 1900.

(** After the match: no unconverted data may remain and the date must
    exist. *)
Definition finish (fix_year : Z -> Z) (m : option (date * string)) : option date :=
  match m with
  | Some (d, EmptyString) =>
      let d' := mkDate (fix_year (year d)) (month d) (day d) in
      if valid_date d' then Some d' else None
  | _ => None
  end.

(** [datetime.strptime(s, "%Y/%m/%d")] and [datetime.strptime(s,
    "%y/%m/%d")]; [None] is the [ValueError] of [strptime]. *)
Definition strptime_Ymd (s : string) : option date :=
  finish (fun y => y) (match_format re_Y s).

Definition strptime_ymd (s : string) : option date :=
  finish century (match_format re_y s).

(** *** Two decimal digits, as [%m] and [%d] print them *)

Definition pad2 (n : Z) : string :=
  String (digit_char (n / 10 mod 10)) (String (digit_char (n mod 10)) "").

End Datetime.
Export Datetime.

(** ** The machine around the wrapper *)

Module Machine.

Inductive Node :=
| File (content : list byte)
| Dir.

(** An argument of a command line: a scalar or a path object. *)
Inductive Arg :=
| AVal (v : PyVal)
| APath (p : PurePath).

Definition AStr (s : string) : Arg := AVal (VStr s).

#[global] Instance Arg_eq_dec : EqDecision Arg.
Proof. solve_decision. Defined.

(** The file system (absolute path string to node) and the command lines
    handed to [subprocess.check_output] so far. *)
Record State := mkState {
  fs : gmap string Node;
  invocations : list (list Arg)
}.

Definition set_fs (f : gmap string Node) (s : State) : State :=
  {| fs := f; invocations := invocations s |}.

Record Codec := mkCodec {
  codec_encode : string -> option (list byte);
  codec_decode : list byte -> option string
}.

(** How a child process ends: it ran and exited, or it could not be
    started at all (the exception of [Popen]). *)
Inductive ProcOutcome :=
| Exited (returncode : Z) (stdout stderr : list byte)
| SpawnError (e : exn).

(** What [json.load] gives on the bytes of a file. *)
Inductive Loaded :=
| LDict (d : gmap string PyVal)
| LOther.

Inductive JsonOutcome :=
| JsonValue (v : Loaded)
| JSONDecodeError (msg : string)
| JsonRaise (e : exn).

Record World := mkWorld {
  cwd : string;                                   (* os.getcwd() *)
  today : date;                                   (* datetime.now().date() *)
  codecs : string -> option Codec;                (* codecs.lookup *)
  locale_codec : Codec;                           (* the codec of encoding=None *)
  tempdir : string;                               (* tempfile.gettempdir() *)
  random_name : gmap string Node -> string;       (* the random part of a temporary name *)
  run_child : list Arg -> gmap string Node -> ProcOutcome * gmap string Node;
  cpe_str : list Arg -> Z -> string;              (* str(CalledProcessError) *)
  json_load : list byte -> JsonOutcome;
  os_error : gmap string Node -> PurePath -> option exn;
                                                  (* what os.stat raises, see [stat_error] *)
  year_text : Z -> string                         (* %Y of the C library below 1000 *)
}.

Section WithWorld.
Context (W : World).

(** The key of a path string in the file system: the absolute path as it
    prints ([..] and links are not resolved). *)
Definition fs_key (s : string) : string := as_posix (absolute (cwd W) (Path s)).

(** The length of a name for the operating system: the bytes of its
    UTF-8 form. *)
Fixpoint fs_bytes (s : string) : Z :=
  match s with
  | EmptyString => 0
  | String c r => (if code c <? 128 then 1 else 2) + fs_bytes r
  end.

(** A relative path of at most one component, of at most 14 bytes (the
    least [NAME_MAX] POSIX allows): a name looked up in the current
    directory, which the process can search. *)
Definition short_name (p : PurePath) : bool :=
  String.eqb (root p) ""
  && match parts p with
     | [] => true
     | [c] => fs_bytes c <=? 14
     | _ => false
     end.

(** The exception of [os.stat] that [exists] lets through: any [OSError]
    other than "not found" (a name the file system finds too long, a
    directory that may not be searched, ...).  The operating system
    decides; a [short_name] is looked up without such an error. *)
Definition stat_error (σ : State) (p : PurePath) : option exn :=
  if short_name p then None else os_error W (fs σ) p.

(** [p.exists()] answers [True]. *)
Definition path_exists (σ : State) (p : PurePath) : bool :=
  bool_decide (stat_error σ p = None)
  && bool_decide (is_Some (fs σ !! as_posix (absolute (cwd W) p))).

(** [p.exists()]: the answer, or the exception of [os.stat]. *)
Definition py_exists (σ : State) (p : PurePath) : result bool :=
  match stat_error σ p with
  | Some e => Raise e
  | None => Ok (path_exists σ p)
  end.

(** [d.strftime("%Y-%m-%d")]: month and day have two digits; the year
    has four from 1000 on, and below that the C library decides how it
    is printed. *)
Definition strftime_Ymd (d : date) : string :=
  (if (1000 <=? year d) && (year d <=? 9999)
   then pad2 (year d / 100) +:+ pad2 (year d mod 100)
   else year_text W (year d))
  +:+ "-" +:+ pad2 (month d) +:+ "-" +:+ pad2 (day d).

(** The codec of [open(..., encoding=encoding)]. *)
Definition lookup_codec (encoding : PyVal) : result Codec :=
  match encoding with
  | VNone => Ok (locale_codec W)
  | VStr e =>
      match codecs W e with
      | Some c => Ok c
      | None => Raise (Builtin "LookupError")
      end
  | _ => Raise (Builtin "TypeError")
  end.

(** [b.decode(encoding)] *)
Definition py_decode (encoding : PyVal) (b : list byte) : result string :=
  match encoding with
  | VStr e =>
      match codecs W e with
      | Some c =>
          match codec_decode c b with
          | Some s => Ok s
          | None => Raise (Builtin "UnicodeDecodeError")
          end
      | None => Raise (Builtin "LookupError")
      end
  | _ => Raise (Builtin "TypeError")
  end.

(** The name [tempfile] gives a new file: the temporary directory, then
    prefix, random part and suffix. *)
Definition temp_path (prefix suffix : string) (σ : State) : string :=
  as_posix (absolute (cwd W)
    (Path (tempdir W) // (prefix +:+ random_name W (fs σ) +:+ suffix))).

(** [tempfile.NamedTemporaryFile(mode='w', encoding=..., prefix=...,
    suffix=..., delete=False)]: the file is created under a name that is
    not in use; when the text layer cannot be opened it is removed
    again. *)
Definition NamedTemporaryFile (encoding : PyVal) (prefix suffix : string) (σ : State)
  : result (string * Codec) * State :=
  let name := temp_path prefix suffix σ in
  match fs σ !! fs_key name with
  | Some _ => (Raise (Builtin "FileExistsError"), σ)
  | None =>
      let created := <[fs_key name := File []]> (fs σ) in
      match lookup_codec encoding with
      | Ok c => (Ok (name, c), set_fs created σ)
      | Raise e => (Raise e, set_fs (delete (fs_key name) created) σ)
      end
  end.

(** [f.write(doc)] and the close at the end of the [with] block. *)
Definition write (name : string) (c : Codec) (doc : string) (σ : State)
  : result unit * State :=
  match codec_encode c doc with
  | Some b => (Ok tt, set_fs (<[fs_key name := File b]> (fs σ)) σ)
  | None => (Raise (Builtin "UnicodeEncodeError"), σ)
  end.

(** [Path(name).unlink(missing_ok=True)] *)
Definition unlink (name : string) (σ : State) : result unit * State :=
  match fs σ !! fs_key name with
  | None => (Ok tt, σ)
  | Some (File _) => (Ok tt, set_fs (delete (fs_key name) (fs σ)) σ)
  | Some Dir => (Raise (Builtin "IsADirectoryError"), σ)
  end.

(** [subprocess.check_output(cmd, stderr=subprocess.PIPE)], before the
    exit status is looked at. *)
Definition run (cmd : list Arg) (σ : State) : ProcOutcome * State :=
  let '(o, f) := run_child W cmd (fs σ) in
  (o, {| fs := f; invocations := invocations σ ++ [cmd] |}).

(** [try: body finally: cleanup] *)
Definition try_finally {A} (body : State -> result A * State)
    (cleanup : State -> result unit * State) (σ : State) : result A * State :=
  let '(r, σ1) := body σ in
  match cleanup σ1 with
  | (Ok _, σ2) => (r, σ2)
  | (Raise e, σ2) => (Raise e, σ2)
  end.
End WithWorld.

(** [except ValueError]: the class and its subclasses. *)
Definition is_ValueError (e : exn) : bool :=
  match e with
  | ValueError _ => true
  | Builtin cls =>
      bool_decide (cls ∈ ["ValueError"; "UnicodeError"; "UnicodeDecodeError"; "UnicodeEncodeError"])
  | _ => false
  end.

Definition try_except_ValueError {A} (body handler : result A) : result A :=
  match body with
  | Raise e => if is_ValueError e then handler else Raise e
  | Ok a => Ok a
  end.

(** [datetime.strptime(v, fmt)] for the two formats of the wrapper. *)
Inductive Format := Ymd | ymd.

Definition strptime (v : PyVal) (fmt : Format) : result date :=
  match v with
  | VStr s =>
      match (match fmt with Ymd => strptime_Ymd s | ymd => strptime_ymd s end) with
      | Some d => Ok d
      | None => Raise (Builtin "ValueError")
      end
  | _ => Raise (Builtin "TypeError")
  end.

End Machine.
Export Machine.

(** ** python_heidelTime.py *)

Definition AVAILABLE_LANGUAGES : list string :=
  ["arabic"; "chinese"; "croatian"; "dutch"; "english"; "englishcoll"; "englishsci"; "estonian";
   "french"; "german"; "italian"; "portuguese"; "russian"; "spanish"; "vietnamese"].

Definition AVAILABLE_DOCUMENT_TYPES : list string :=
  ["colloquial"; "narratives"; "news"; "scientific"].

Definition AVAILABLE_OUTPUT_TYPES : list string := ["timeml"; "xmi"].

(** The attributes of a [HeidelTime] object. *)
Record HeidelTime := mkHeidelTime {
  config : gmap string PyVal;
  heidel : PurePath;
  java : PyVal;
  start_date : date;
  conf_heideltime : PurePath;
  doc_type : PyVal;
  lang : PyVal;
  output_type : PyVal;
  encoding : PyVal;
  verbosity : PyVal;
  interval_tagger : PyVal;
  locale : PyVal;
  pos_tagger : PyVal
}.

(** Assignments [self.x = v]. *)
Definition with_start_date (v : date) (o : HeidelTime) : HeidelTime :=
  mkHeidelTime (config o) (heidel o) (java o) v (conf_heideltime o) (doc_type o)
    (lang o) (output_type o) (encoding o) (verbosity o) (interval_tagger o)
    (locale o) (pos_tagger o).
Definition with_conf_heideltime (v : PurePath) (o : HeidelTime) : HeidelTime :=
  mkHeidelTime (config o) (heidel o) (java o) (start_date o) v (doc_type o) (lang o)
    (output_type o) (encoding o) (verbosity o) (interval_tagger o) (locale o)
    (pos_tagger o).
Definition with_doc_type (v : PyVal) (o : HeidelTime) : HeidelTime :=
  mkHeidelTime (config o) (heidel o) (java o) (start_date o) (conf_heideltime o) v
    (lang o) (output_type o) (encoding o) (verbosity o) (interval_tagger o)
    (locale o) (pos_tagger o).
Definition with_lang (v : PyVal) (o : HeidelTime) : HeidelTime :=
  mkHeidelTime (config o) (heidel o) (java o) (start_date o) (conf_heideltime o)
    (doc_type o) v (output_type o) (encoding o) (verbosity o) (interval_tagger o)
    (locale o) (pos_tagger o).
Definition with_output_type (v : PyVal) (o : HeidelTime) : HeidelTime :=
  mkHeidelTime (config o) (heidel o) (java o) (start_date o) (conf_heideltime o)
    (doc_type o) (lang o) v (encoding o) (verbosity o) (interval_tagger o)
    (locale o) (pos_tagger o).
Definition with_encoding (v : PyVal) (o : HeidelTime) : HeidelTime :=
  mkHeidelTime (config o) (heidel o) (java o) (start_date o) (conf_heideltime o)
    (doc_type o) (lang o) (output_type o) v (verbosity o) (interval_tagger o)
    (locale o) (pos_tagger o).
Definition with_verbosity (v : PyVal) (o : HeidelTime) : HeidelTime :=
  mkHeidelTime (config o) (heidel o) (java o) (start_date o) (conf_heideltime o)
    (doc_type o) (lang o) (output_type o) (encoding o) v (interval_tagger o)
    (locale o) (pos_tagger o).
Definition with_interval_tagger (v : PyVal) (o : HeidelTime) : HeidelTime :=
  mkHeidelTime (config o) (heidel o) (java o) (start_date o) (conf_heideltime o)
    (doc_type o) (lang o) (output_type o) (encoding o) (verbosity o) v (locale o)
    (pos_tagger o).
Definition with_locale (v : PyVal) (o : HeidelTime) : HeidelTime :=
  mkHeidelTime (config o) (heidel o) (java o) (start_date o) (conf_heideltime o)
    (doc_type o) (lang o) (output_type o) (encoding o) (verbosity o)
    (interval_tagger o) v (pos_tagger o).
Definition with_pos_tagger (v : PyVal) (o : HeidelTime) : HeidelTime :=
  mkHeidelTime (config o) (heidel o) (java o) (start_date o) (conf_heideltime o)
    (doc_type o) (lang o) (output_type o) (encoding o) (verbosity o)
    (interval_tagger o) (locale o) v.

(** All attributes of an object, in the order of the record. *)
Definition attributes (o : HeidelTime) :=
  (config o, heidel o, java o, start_date o, conf_heideltime o, doc_type o, lang o,
   output_type o, encoding o, verbosity o, interval_tagger o, locale o, pos_tagger o).

(** A method: the outcome of the call and the object after it. *)
Definition Method (A : Type) : Type := HeidelTime -> result A * HeidelTime.

(** Run a method during construction: the object after it, or its
    exception. *)
Definition call (m : Method unit) (self : HeidelTime) : result HeidelTime :=
  match m self with
  | (Ok _, self') => Ok self'
  | (Raise e, _) => Raise e
  end.

Definition dquote : string := String (chr 34) "".
Definition newline : string := String (chr 10) "".

(** The setters that [__init__] calls on configuration values take any
    value: [v.lower()] exists on a [str] only.  The others take arguments
    of their annotated types. *)

Definition set_lang (lang : PyVal) : Method unit := fun self =>
  match lang with
  | VStr s =>
      if negb (bool_decide (lower s ∈ AVAILABLE_LANGUAGES)) then
        (Raise (ValueError ("Languague: " +:+ dquote +:+ " " +:+ s +:+ " " +:+ dquote
                            +:+ "is not supported in heideltime"
                            +:+ "Please chose one of the supported languagues:" +:+ newline
                            +:+ " " +:+ repr_list AVAILABLE_LANGUAGES)), self)
      else (Ok tt, with_lang (VStr (lower s)) self)
  | _ => (Raise (Builtin "AttributeError"), self)
  end.

Definition set_type (type : PyVal) : Method unit := fun self =>
  match type with
  | VStr s =>
      if negb (bool_decide (lower s ∈ AVAILABLE_DOCUMENT_TYPES)) then
        (Raise (ValueError ("Document type: " +:+ dquote +:+ s +:+ dquote +:+ " is not specified !"
                            +:+ "Please select one of those documents type:" +:+ newline
                            +:+ repr_list AVAILABLE_DOCUMENT_TYPES)), self)
      else (Ok tt, with_doc_type type self)
  | _ => (Raise (Builtin "AttributeError"), self)
  end.

Definition out_type (o_type : PyVal) : Method unit := fun self =>
  match o_type with
  | VStr s =>
      if negb (bool_decide (lower s ∈ AVAILABLE_OUTPUT_TYPES)) then
        (Raise (ValueError ("output type: " +:+ s +:+ " is not specified !"
                            +:+ "Please select one of those output type" +:+ newline
                            +:+ repr_list AVAILABLE_OUTPUT_TYPES)), self)
      else (Ok tt, with_output_type o_type self)
  | _ => (Raise (Builtin "AttributeError"), self)
  end.

(** [set_time] stores the [datetime] itself, at midnight of the parsed
    day; [strftime("%Y-%m-%d")] prints it as it prints the date. *)
Definition set_time (doc_time : string) : Method unit := fun self =>
  match
    try_except_ValueError (strptime (VStr doc_time) Ymd)
      (try_except_ValueError (strptime (VStr doc_time) ymd)
         (Raise (ValueError "doc_time must be in format 'YYYY/MM/DD or YY/MM/DD'")))
  with
  | Ok d => (Ok tt, with_start_date d self)
  | Raise e => (Raise e, self)
  end.

Definition set_encod (encod : string) : Method unit := fun self =>
  (Ok tt, with_encoding (VStr encod) self).

Definition set_config (conf_path : string) (abs : bool) : Method unit := fun self =>
  if negb abs then (Ok tt, with_conf_heideltime (heidel self // conf_path) self)
  else (Ok tt, with_conf_heideltime (Path conf_path) self).

Definition set_verbosity (verbosity : bool) : Method unit := fun self =>
  (Ok tt, with_verbosity (VBool verbosity) self).

Definition set_interval_tagger (interval_tagger : bool) : Method unit := fun self =>
  (Ok tt, with_interval_tagger (VBool interval_tagger) self).

Definition set_locale (locale : string) : Method unit := fun self =>
  (Ok tt, with_locale (VStr locale) self).

Definition set_pos_tagger (pos_tagger : string) : Method unit := fun self =>
  (Ok tt, with_pos_tagger (VStr pos_tagger) self).

(** What [__init__] receives as [config]. *)
Inductive ConfigArg :=
| CfgDict (d : gmap string PyVal)
| CfgPath (p : string)
| CfgOther.

Section WithWorld.
Context (W : World).

(** The test [config is {}] compares with a fresh object and is never
    true; an empty mapping is returned by the next branch. *)
Definition _loadconfig (config : ConfigArg) (σ : State) : result Loaded :=
  match config with
  | CfgDict d => Ok (LDict d)
  | CfgPath p =>
      let config_path := Path p in
      found <- py_exists W σ config_path ;;
      if negb found then
        Raise (FileNotFoundError ("Configuration File for the wrapper is not found : "
                                  +:+ as_posix config_path +:+ "!"))
      else
        match fs σ !! as_posix (absolute (cwd W) config_path) with
        | Some (File b) =>
            match json_load W b with
            | JsonValue v => Ok v
            | JSONDecodeError e => Raise (ValueError ("Invalid JSON configuration file: " +:+ e))
            | JsonRaise e => Raise e
            end
        | _ => Raise (Builtin "IsADirectoryError")
        end
  | CfgOther =>
      Raise (TypeError "Configuration must be a dictionary, path string, or path Path object !!")
  end.

Definition __init__ (config : ConfigArg) (σ : State) : result HeidelTime :=
  loaded <- _loadconfig config σ ;;
  match loaded with
  | LOther => Raise (Builtin "AttributeError")
  | LDict config =>
      let heideltime_path := dict_get config "heideltime_path" VNone in
      if bool_decide (heideltime_path = VNone) then
        Raise (ValueError "Please specify the path to Heideltime.standalone.jar in the configuration")
      else
        heidel <- py_Path heideltime_path ;;
        found <- py_exists W σ heidel ;;
        if negb found then
          Raise (FileNotFoundError ("HeidelTime jar file is not found at " +:+ as_posix heidel))
        else
          let java := dict_get config "java_path" (VStr "java") in
          let start_date_str := dict_get config "start_date" VNone in
          start_date <-
            (if truthy start_date_str then
               try_except_ValueError (strptime start_date_str Ymd)
                 (try_except_ValueError (strptime start_date_str ymd)
                    (Raise (ValueError "start_date must be in format 'YYYY/MM/DD or YY/MM/DD'")))
             else Ok (today W)) ;;
          let conf_heideltime := dict_get config "conf_heideltime" VNone in
          conf_heideltime <-
            (if bool_decide (conf_heideltime = VNone) then Ok (heidel // "config.props")
             else py_Path conf_heideltime) ;;
          (* the remaining attributes are read from the mapping; the
             three validated ones go through their setters, in order *)
          let self :=
            {| config := config; heidel := heidel; java := java; start_date := start_date;
               conf_heideltime := conf_heideltime;
               doc_type := dict_get config "doc_type" (VStr "narratives");
               lang := dict_get config "lang" (VStr "french");
               output_type := dict_get config "output_type" (VStr "TIMEML");
               encoding := dict_get config "encoding" (VStr "UTF-8");
               verbosity := dict_get config "verbosity" (VBool false);
               interval_tagger := dict_get config "interval_tagger" (VBool false);
               locale := dict_get config "locale" VNone;
               pos_tagger := dict_get config "pos_tagger" (VStr "no") |} in
          self <- call (set_type (doc_type self)) self ;;
          self <- call (set_lang (lang self)) self ;;
          self <- call (out_type (output_type self)) self ;;
          Ok self
  end.

(** The command line of [parse] (the list [cmd] and the appends). *)
Definition build_cmd (self : HeidelTime) (tmp_file_path : string) : list Arg :=
  let jar_path := heidel self // "de.unihd.dbs.heideltime.standalone.jar" in
  let cmd := [AVal (java self);
              AStr "-jar"; AStr (as_posix (absolute (cwd W) jar_path));
              AStr tmp_file_path;
              AStr "-l"; AVal (lang self);
              AStr "-t"; AVal (doc_type self);
              AStr "-o"; AVal (output_type self);
              AStr "-c"; APath (conf_heideltime self);
              AStr "-e"; AVal (encoding self);
              AStr "-dct"; AStr (strftime_Ymd W (start_date self))] in
  let cmd := if truthy (verbosity self) then (cmd ++ [AStr "-v"])%list else cmd in
  let cmd := if truthy (interval_tagger self) then (cmd ++ [AStr "-it"])%list else cmd in
  let cmd := if truthy (locale self) then (cmd ++ [AStr "-locale"; AVal (locale self)])%list else cmd in
  let cmd := if truthy (pos_tagger self) then (cmd ++ [AStr "-pos"; AVal (pos_tagger self)])%list else cmd in
  cmd.

(** The two parts of that command line: the sixteen arguments of the
    list literal, and what the four [if]s append. *)
Definition required_args (self : HeidelTime) (tmp_file_path : string) : list Arg :=
  [AVal (java self);
   AStr "-jar";
   AStr (as_posix (absolute (cwd W) (heidel self // "de.unihd.dbs.heideltime.standalone.jar")));
   AStr tmp_file_path;
   AStr "-l"; AVal (lang self);
   AStr "-t"; AVal (doc_type self);
   AStr "-o"; AVal (output_type self);
   AStr "-c"; APath (conf_heideltime self);
   AStr "-e"; AVal (encoding self);
   AStr "-dct"; AStr (strftime_Ymd W (start_date self))].

Definition optional_args (self : HeidelTime) : list Arg :=
  ((if truthy (verbosity self) then [AStr "-v"] else []) ++
   (if truthy (interval_tagger self) then [AStr "-it"] else []) ++
   (if truthy (locale self) then [AStr "-locale"; AVal (locale self)] else []) ++
   (if truthy (pos_tagger self) then [AStr "-pos"; AVal (pos_tagger self)] else []))%list.

(** The inner [try] of [parse]: run the tagger and translate its end. *)
Definition run_tagger (self : HeidelTime) (tmp_file_path : string) (σ : State)
  : result string * State :=
  let cmd := build_cmd self tmp_file_path in
  let '(o, σ') := run W cmd σ in
  match o with
  | SpawnError e => (Raise e, σ')
  | Exited returncode stdout stderr =>
      if returncode =? 0 then (py_decode W (encoding self) stdout, σ')
      else
        let error_msg :=
          if negb (bool_decide (stderr = [])) then py_decode W (encoding self) stderr
          else Ok (cpe_str W cmd returncode) in
        match error_msg with
        | Ok m => (Raise (RuntimeError ("HeidelTime execution failed: " +:+ m)), σ')
        | Raise e => (Raise e, σ')
        end
  end.

(** [parse] reads the object and does not assign to it. *)
Definition parse (doc : string) (self : HeidelTime) (σ : State) : result string * State :=
  if String.eqb doc "" then (Raise (ValueError "No text provided to parse"), σ)
  else
    match NamedTemporaryFile W (encoding self) "heideltime_" ".tmp" σ with
    | (Raise e, σ1) => (Raise e, σ1)
    | (Ok (tmp_file_path, codec), σ1) =>
        match write W tmp_file_path codec doc σ1 with
        | (Raise e, σ2) => (Raise e, σ2)
        | (Ok _, σ2) =>
            try_finally (run_tagger self tmp_file_path) (unlink W tmp_file_path) σ2
        end
    end.
End WithWorld.

(** ** The error taxonomy of the specification

    The wrapper raises built-in exception classes; the specification
    groups its failures into three kinds.  [error_kind] follows the
    specification's list: a missing tool path, an unusable configuration
    source and a tool path that does not exist are configuration errors;
    the other [ValueError]s of the wrapper are validation errors; the
    [RuntimeError] of a failed run is an execution error. *)

Inductive ErrorKind := ConfigurationError | ValidationError | ExecutionError.

Definition error_kind (e : exn) : option ErrorKind :=
  match e with
  | FileNotFoundError _ => Some ConfigurationError
  | TypeError _ => Some ConfigurationError
  | ValueError m =>
      if String.eqb m "Please specify the path to Heideltime.standalone.jar in the configuration"
         || String.prefix "Invalid JSON configuration file: " m
      then Some ConfigurationError
      else Some ValidationError
  | RuntimeError _ => Some ExecutionError
  | Builtin _ => None
  end.

(** ** The invariant of a constructed object

    What the three validating setters establish: the language is a [str]
    of [AVAILABLE_LANGUAGES] itself, the document type and the output type
    are [str]s whose lowercase form is in their table. *)

Definition chosen (table : list string) (fold_case : bool) (v : PyVal) : bool :=
  match v with
  | VStr s => bool_decide ((if fold_case then lower s else s) ∈ table)
  | _ => false
  end.

Definition validated (o : HeidelTime) : bool :=
  chosen AVAILABLE_LANGUAGES false (lang o)
  && chosen AVAILABLE_DOCUMENT_TYPES true (doc_type o)
  && chosen AVAILABLE_OUTPUT_TYPES true (output_type o).

(** ** The configurations [__init__] accepts

    The checks of [__init__] on a mapping, in one test: the tool path is a
    [str] naming an existing path; the start date is false in Python's
    sense or a [str] one of the two formats parses; the settings path is
    [None], absent or a [str]; the three choices are [str]s in their
    tables, case folded. *)

Definition date_ok (v : PyVal) : bool :=
  negb (truthy v)
  || match v with
     | VStr s => bool_decide (is_Some (strptime_Ymd s)) || bool_decide (is_Some (strptime_ymd s))
     | _ => false
     end.

Definition path_ok (v : PyVal) : bool :=
  match v with
  | VNone | VStr _ => true
  | _ => false
  end.

Definition acceptable (W : World) (σ : State) (d : gmap string PyVal) : bool :=
  match dict_get d "heideltime_path" VNone with
  | VStr p => path_exists W σ (Path p)
  | _ => false
  end
  && date_ok (dict_get d "start_date" VNone)
  && path_ok (dict_get d "conf_heideltime" VNone)
  && chosen AVAILABLE_DOCUMENT_TYPES true (dict_get d "doc_type" (VStr "narratives"))
  && chosen AVAILABLE_LANGUAGES true (dict_get d "lang" (VStr "french"))
  && chosen AVAILABLE_OUTPUT_TYPES true (dict_get d "output_type" (VStr "TIMEML")).

(** ** time.py *)




(** ** Concrete worlds, to run the model *)

Module Demo.

Definition byte_code (b : byte) : Z := Z.of_N (Byte.to_N b).

(** The [ascii] codec: code points and bytes below 128. *)
Definition ascii_codec : Codec :=
  {| codec_encode s :=
       if forallb (fun c => code c <? 128) (list_ascii_of_string s)
       then Some (list_byte_of_string s) else None;
     codec_decode b :=
       if forallb (fun x => byte_code x <? 128) b
       then Some (string_of_list_byte b) else None |}.

(** The [latin-1] codec: every code point below 256 is its byte. *)
Definition latin1_codec : Codec :=
  {| codec_encode s := Some (list_byte_of_string s);
     codec_decode b := Some (string_of_list_byte b) |}.

Definition registry (name : string) : option Codec :=
  if String.eqb name "ascii" then Some ascii_codec
  else if String.eqb name "latin-1" then Some latin1_codec
  else None.

(** The operating system of these worlds refuses a path of 4096 bytes or
    more and a component of more than 255 bytes, with [OSError]
    (ENAMETOOLONG), and prints a year below 1000 without padding. *)
Definition name_too_long (f : gmap string Node) (p : PurePath) : option exn :=
  if (4096 <=? fs_bytes (as_posix p)) || existsb (fun c => 255 <? fs_bytes c) (parts p)
  then Some (Builtin "OSError") else None.

Definition unpadded (y : Z) : string :=
  if y <? 10 then String (digit_char y) ""
  else if y <? 100 then pad2 y
  else String (digit_char (y / 100)) (pad2 y).

(** A world around a given child process. *)
Definition world (child : list Arg -> gmap string Node -> ProcOutcome * gmap string Node) : World :=
  {| cwd := "/home/user";
     today := mkDate 2025 3 16;
     codecs := registry;
     locale_codec := latin1_codec;
     tempdir := "/tmp";
     random_name := fun _ => "a1b2c3d4";
     run_child := child;
     cpe_str := fun _ _ => "Command returned non-zero exit status.";
     json_load := fun _ => JSONDecodeError "Expecting value: line 1 column 1 (char 0)";
     os_error := name_too_long;
     year_text := unpadded |}.

(** A tagger that exits with the given status and output. *)
Definition exits (returncode : Z) (stdout stderr : string)
  : list Arg -> gmap string Node -> ProcOutcome * gmap string Node :=
  fun _ f => (Exited returncode (list_byte_of_string stdout) (list_byte_of_string stderr), f).

Definition tool : string := "/opt/heideltime".

(** A disk with the tool directory on it. *)
Definition disk : State :=
  {| fs := {[ tool := Dir ]}; invocations := [] |}.

(** The object built from the mapping [c] when it sets no option other
    than the tool path and the encoding [enc] (compared with [__init__]
    below). *)
Definition built (c : gmap string PyVal) (enc : string) : HeidelTime :=
  {| config := c; heidel := Path tool; java := VStr "java";
     start_date := mkDate 2025 3 16; conf_heideltime := Path tool // "config.props";
     doc_type := VStr "narratives"; lang := VStr "french"; output_type := VStr "TIMEML";
     encoding := VStr enc; verbosity := VBool false; interval_tagger := VBool false;
     locale := VNone; pos_tagger := VStr "no" |}.

(** The default configuration: only the required tool path. *)
Definition default_config : gmap string PyVal := {[ "heideltime_path" := VStr tool ]}.
Definition default_wrapper : HeidelTime := built default_config "UTF-8".

(** The same with an explicit codec. *)
Definition conf (enc : string) : gmap string PyVal :=
  {[ "heideltime_path" := VStr tool; "encoding" := VStr enc ]}.
Definition wrapper (enc : string) : HeidelTime := built (conf enc) enc.

(** A configuration with a start date, and one whose tool path is not on
    the disk. *)
Definition dated (day : string) : gmap string PyVal :=
  {[ "heideltime_path" := VStr tool; "start_date" := VStr day ]}.
Definition misplaced : gmap string PyVal :=
  {[ "heideltime_path" := VStr "/nowhere"; "lang" := VStr "english" ]}.

(** The name [tempfile] picks in these worlds. *)
Definition tmp : string := "/tmp/heideltime_a1b2c3d4.tmp".

(** The disk after the temporary file has been created, and after the
    text "hello" has been written to it. *)
Definition created : State := set_fs (<[tmp := File []]> (fs disk)) disk.
Definition written : State :=
  set_fs (<[tmp := File (list_byte_of_string "hello")]> (fs created)) created.

(** Four taggers: one that answers, one that crashes with a message, one
    that fails without a word, one whose standard error is the single byte
    255. *)
Definition answering : World := world (exits 0 "<TimeML>ok</TimeML>" "").
Definition crashing : World := world (exits 1 "" "tagger crashed").
Definition silent : World := world (exits 2 "" "").
Definition garbled : World := world (exits 1 "" (String (chr 255) "")).

(** The one-character text U+00E9. *)
Definition e_acute : string := String (chr 233) "".

(** A world in which [json.load] gives [j] for every file, and a disk
    with [hconfig.json] in the current directory. *)
Definition loading (j : JsonOutcome) : World :=
  {| cwd := "/home/user";
     today := mkDate 2025 3 16;
     codecs := registry;
     locale_codec := latin1_codec;
     tempdir := "/tmp";
     random_name := fun _ => "a1b2c3d4";
     run_child := exits 0 "<TimeML>ok</TimeML>" "";
     cpe_str := fun _ _ => "Command returned non-zero exit status.";
     json_load := fun _ => j;
     os_error := name_too_long;
     year_text := unpadded |}.

Definition configured : State :=
  {| fs := {[ tool := Dir; "/home/user/hconfig.json" := File [] ]}; invocations := [] |}.

(** A machine on which the runtime cannot be started. *)
Definition no_runtime : World :=
  world (fun _ f => (SpawnError (Builtin "FileNotFoundError"), f)).

(** A tagger that exits with status 0 and the single byte 255 on its
    standard output. *)
Definition garbled_output : World := world (exits 0 (String (chr 255) "") "").

(** A name of 256 letters, and the configuration that gives it as the
    tool path. *)
Definition overlong : string := string_of_list_ascii (repeat "a"%char 256).
Definition unreachable : gmap string PyVal := {[ "heideltime_path" := VStr overlong ]}.

(** An object with other choices than the defaults. *)
Definition older : HeidelTime :=
  {| config := default_config; heidel := Path tool; java := VStr "java";
     start_date := mkDate 1999 12 31; conf_heideltime := Path tool // "config.props";
     doc_type := VStr "news"; lang := VStr "english"; output_type := VStr "xmi";
     encoding := VStr "UTF-8"; verbosity := VBool false; interval_tagger := VBool false;
     locale := VNone; pos_tagger := VStr "no" |}.

(** A configuration with two bad choices. *)
Definition unruly : gmap string PyVal :=
  {[ "heideltime_path" := VStr tool; "doc_type" := VStr "blog"; "lang" := VStr "klingon" ]}.

End Demo.

(** * Properties *)

(** ** Strings *)

Lemma lower_idempotent s : lower (lower s) = lower s.
Proof.
  induction s as [|c r IH]; simpl; [reflexivity|].
  f_equal; [|exact IH].
  destruct c as [[] [] [] [] [] [] [] []]; vm_compute; reflexivity.
Qed.

Lemma prefix_refl s : String.prefix s s = true.
Proof.
  induction s as [|c r IH]; simpl; [reflexivity|].
  destruct (ascii_dec c c); [exact IH | congruence].
Qed.

Lemma contains_refl s : contains s s = true.
Proof.
  destruct s as [|c r]; simpl; [reflexivity|].
  rewrite prefix_refl. destruct (ascii_dec c c); [reflexivity | congruence].
Qed.

Lemma contains_app_r p s : contains s (p +:+ s) = true.
Proof.
  induction p as [|c r IH]; simpl.
  - apply contains_refl.
  - rewrite IH. apply orb_true_r.
Qed.

Lemma append_assoc (a b c : string) : (a +:+ b) +:+ c = a +:+ b +:+ c.
Proof.
  induction a as [|x a IH]; [reflexivity|].
  change (String x ((a +:+ b) +:+ c) = String x (a +:+ b +:+ c)).
  f_equal. exact IH.
Qed.

Lemma join_snoc sep l x :
  l <> [] -> join sep (l ++ [x]) = join sep l +:+ sep +:+ x.
Proof.
  induction l as [|y l IH]; [contradiction|]. intros _.
  destruct l as [|z l]; [reflexivity|].
  change (join sep ((y :: z :: l) ++ [x])) with (y +:+ sep +:+ join sep ((z :: l) ++ [x])).
  rewrite IH by discriminate.
  change (join sep (y :: z :: l)) with (y +:+ sep +:+ join sep (z :: l)).
  rewrite !append_assoc. reflexivity.
Qed.

(** ** Paths *)

Lemma split_no_slash s :
  forallb (fun c => negb (Ascii.eqb c "/")) (list_ascii_of_string s) = true ->
  split "/" s = [s].
Proof.
  induction s as [|c r IH]; [reflexivity|]. simpl.
  intros [Hc Hr]%andb_prop. rewrite (IH Hr).
  destruct (Ascii.eqb c "/"); [discriminate | reflexivity].
Qed.

Lemma Path_name s : is_name s = true -> Path s = {| root := ""; parts := [s] |}.
Proof.
  unfold is_name, Path. intros [Hcomp Hslash]%andb_prop.
  rewrite (split_no_slash s Hslash). simpl. rewrite Hcomp. f_equal.
  destruct s as [|c r]; [reflexivity|].
  simpl in Hslash. apply andb_prop in Hslash as [Hc _].
  unfold root_of.
  destruct c as [[] [] [] [] [] [] [] []]; try reflexivity. discriminate.
Qed.

Lemma as_posix_parts p :
  parts p <> [] -> as_posix p = root p +:+ join "/" (parts p).
Proof.
  unfold as_posix. destruct (parts p) as [|x l]; [contradiction|]. intros _.
  destruct (root p); reflexivity.
Qed.

(** Below a path with at least one component, a name is joined with a
    slash. *)
Lemma truediv_name p s :
  is_name s = true -> parts p <> [] ->
  as_posix (p // s) = as_posix p +:+ "/" +:+ s.
Proof.
  intros Hname Hparts. unfold truediv. rewrite (Path_name s Hname).
  change (is_absolute {| root := ""; parts := [s] |}) with false. cbv iota.
  rewrite (as_posix_parts p Hparts), as_posix_parts; cbn [root parts].
  - rewrite (join_snoc "/" _ s Hparts), append_assoc. reflexivity.
  - destruct (parts p); [contradiction | discriminate].
Qed.

Lemma join_app sep l1 l2 :
  l1 <> [] -> l2 <> [] -> join sep (l1 ++ l2) = join sep l1 +:+ sep +:+ join sep l2.
Proof.
  intros H1 H2. induction l1 as [|y l1 IH]; [contradiction|].
  destruct l1 as [|z l1].
  - destruct l2 as [|x l2]; [contradiction | reflexivity].
  - change (join sep ((y :: z :: l1) ++ l2)) with (y +:+ sep +:+ join sep ((z :: l1) ++ l2)).
    rewrite IH by discriminate.
    change (join sep (y :: z :: l1)) with (y +:+ sep +:+ join sep (z :: l1)).
    rewrite !append_assoc. reflexivity.
Qed.

Lemma leading_slash_is_absolute s :
  String.prefix "/" s = true -> is_absolute (Path s) = true.
Proof.
  destruct s as [|c r]; [discriminate|]. cbn [String.prefix].
  destruct (ascii_dec "/" c) as [<-|]; [intros _ | discriminate].
  unfold is_absolute, Path, root. unfold root_of.
  destruct r as [|c2 r2]; [reflexivity|].
  destruct (Ascii.eqb_spec c2 "/") as [->|Hc2].
  - destruct r2 as [|c3 r3]; [reflexivity|].
    destruct c3 as [[] [] [] [] [] [] [] []]; reflexivity.
  - destruct c2 as [[] [] [] [] [] [] [] []]; try reflexivity.
    exfalso. apply Hc2. reflexivity.
Qed.

Lemma no_leading_slash_is_relative s :
  String.prefix "/" s = false -> is_absolute (Path s) = false.
Proof.
  destruct s as [|c r]; [reflexivity|]. cbn [String.prefix].
  destruct (ascii_dec "/" c) as [<-|Hc]; [destruct r; discriminate|]. intros _.
  unfold is_absolute, Path, root, root_of.
  destruct c as [[] [] [] [] [] [] [] []]; try reflexivity.
  exfalso. apply Hc. reflexivity.
Qed.

(** A relative right operand is appended, component by component. *)
Lemma truediv_relative p s :
  is_absolute (Path s) = false ->
  root (p // s) = root p
  /\ parts (p // s) = parts p ++ parts (Path s)
  /\ (parts p <> [] -> parts (Path s) <> [] ->
      as_posix (p // s) = as_posix p +:+ "/" +:+ as_posix (Path s)).
Proof.
  intros Hrel. unfold truediv. rewrite Hrel. cbn [root parts].
  split; [reflexivity|]. split; [reflexivity|].
  intros Hp Hs.
  assert (Hroot : root (Path s) = "").
  { unfold is_absolute in Hrel. destruct (root (Path s)); [reflexivity | discriminate]. }
  rewrite (as_posix_parts p Hp), (as_posix_parts (Path s) Hs), Hroot.
  rewrite as_posix_parts; cbn [root parts].
  - rewrite (join_app "/" _ _ Hp Hs), append_assoc. reflexivity.
  - destruct (parts p); [contradiction | discriminate].
Qed.

(** ** The command line *)

Section Command.
Context (W : World).

Lemma strftime_four_digits d :
  1000 <= year d <= 9999 ->
  strftime_Ymd W d
  = pad2 (year d / 100) +:+ pad2 (year d mod 100)
    +:+ "-" +:+ pad2 (month d) +:+ "-" +:+ pad2 (day d)
  /\ String.length (strftime_Ymd W d) = 10%nat.
Proof.
  intros [Hlo Hhi]. unfold strftime_Ymd.
  rewrite (proj2 (Z.leb_le _ _) Hlo), (proj2 (Z.leb_le _ _) Hhi).
  split; reflexivity.
Qed.

Lemma build_cmd_parts self tmp_file_path :
  build_cmd W self tmp_file_path = required_args W self tmp_file_path ++ optional_args self.
Proof.
  unfold build_cmd, required_args, optional_args.
  destruct (truthy (verbosity self)), (truthy (interval_tagger self)),
    (truthy (locale self)), (truthy (pos_tagger self)); reflexivity.
Qed.

Lemma required_args_length self tmp_file_path :
  length (required_args W self tmp_file_path) = 16%nat.
Proof. reflexivity. Qed.
End Command.

(** ** The file system and the log of child processes *)

Section Frames.
Context (W : World).

(** Opening the temporary file starts no process; when it fails the
    file system is as before. *)
Lemma NamedTemporaryFile_invocations enc pre suf σ :
  invocations (NamedTemporaryFile W enc pre suf σ).2 = invocations σ.
Proof.
  unfold NamedTemporaryFile.
  destruct (fs σ !! _); [reflexivity|].
  destruct (lookup_codec W enc); reflexivity.
Qed.

Lemma NamedTemporaryFile_name enc pre suf σ name c σ1 :
  NamedTemporaryFile W enc pre suf σ = (Ok (name, c), σ1) ->
  name = temp_path W pre suf σ
  /\ fs σ !! fs_key W name = None
  /\ lookup_codec W enc = Ok c
  /\ σ1 = set_fs (<[fs_key W name := File []]> (fs σ)) σ.
Proof.
  unfold NamedTemporaryFile.
  destruct (fs σ !! _) eqn:Hfree; [discriminate|].
  destruct (lookup_codec W enc) as [c'|e]; [|discriminate].
  intros [= <- <- <-]. auto.
Qed.

Lemma NamedTemporaryFile_failed enc pre suf σ e σ1 :
  NamedTemporaryFile W enc pre suf σ = (Raise e, σ1) -> σ1 = σ.
Proof.
  unfold NamedTemporaryFile.
  destruct (fs σ !! _) eqn:Hfree; [intros [= _ <-]; reflexivity|].
  destruct (lookup_codec W enc) as [c'|e']; [discriminate|].
  intros [= _ <-]. destruct σ as [f l]. unfold set_fs; simpl in *. f_equal.
  rewrite delete_insert_eq. apply delete_id. exact Hfree.
Qed.

Lemma write_invocations name c doc σ :
  invocations (write W name c doc σ).2 = invocations σ.
Proof. unfold write. destruct (codec_encode c doc); reflexivity. Qed.

Lemma unlink_invocations name σ :
  invocations (unlink W name σ).2 = invocations σ.
Proof. unfold unlink. destruct (fs σ !! _) as [[]|]; reflexivity. Qed.

(** After [unlink], whatever it answers, no regular file is left under
    the name. *)
Lemma unlink_no_file name σ b :
  fs (unlink W name σ).2 !! fs_key W name <> Some (File b).
Proof.
  unfold unlink. destruct (fs σ !! fs_key W name) as [[b'|]|] eqn:E; simpl.
  - rewrite lookup_delete_eq. discriminate.
  - rewrite E. discriminate.
  - rewrite E. discriminate.
Qed.

Lemma run_tagger_invocations self name σ :
  invocations (run_tagger W self name σ).2 = invocations σ ++ [build_cmd W self name].
Proof.
  unfold run_tagger, run.
  destruct (run_child W _ (fs σ)) as [o f].
  destruct o as [rc out err|e]; [|reflexivity].
  destruct (rc =? 0); [reflexivity|].
  destruct (if negb _ then _ else _); reflexivity.
Qed.

Lemma unlink_ok name σ :
  fs σ !! fs_key W name <> Some Dir -> (unlink W name σ).1 = Ok tt.
Proof.
  unfold unlink. destruct (fs σ !! fs_key W name) as [[b|]|]; try reflexivity.
  intros Hdir. contradiction.
Qed.

Lemma run_tagger_fs self name σ o f :
  run_child W (build_cmd W self name) (fs σ) = (o, f) ->
  fs (run_tagger W self name σ).2 = f.
Proof.
  intros Hrun. unfold run_tagger, run. rewrite Hrun.
  destruct o as [rc out err|e]; [|reflexivity].
  destruct (rc =? 0); [reflexivity|].
  destruct (if negb _ then _ else _); reflexivity.
Qed.

Lemma try_finally_outcome {A} (body : State -> result A * State) cleanup σ :
  (cleanup (body σ).2).1 = Ok tt -> (try_finally body cleanup σ).1 = (body σ).1.
Proof.
  unfold try_finally. destruct (body σ) as [r σ1]; simpl.
  destruct (cleanup σ1) as [[[]|e] σ2]; simpl; [reflexivity | discriminate].
Qed.

Lemma try_finally_state {A} (body : State -> result A * State) cleanup σ :
  (try_finally body cleanup σ).2 = (cleanup (body σ).2).2.
Proof.
  unfold try_finally. destruct (body σ) as [r σ1]; simpl.
  destruct (cleanup σ1) as [[[]|e] σ2]; reflexivity.
Qed.

(** [parse] once the text is in its temporary file. *)
Lemma parse_after_write doc self σ name c σ1 σ2 :
  doc <> "" ->
  NamedTemporaryFile W (encoding self) "heideltime_" ".tmp" σ = (Ok (name, c), σ1) ->
  write W name c doc σ1 = (Ok tt, σ2) ->
  parse W doc self σ = try_finally (run_tagger W self name) (unlink W name) σ2.
Proof.
  intros Hdoc Htmp Hwrite. unfold parse.
  destruct (String.eqb_spec doc ""); [contradiction|].
  rewrite Htmp, Hwrite. reflexivity.
Qed.

(** On every path that follows the write, the file is removed. *)
Lemma parse_cleans_after_write doc self σ name c σ1 σ2 b :
  doc <> "" ->
  NamedTemporaryFile W (encoding self) "heideltime_" ".tmp" σ = (Ok (name, c), σ1) ->
  write W name c doc σ1 = (Ok tt, σ2) ->
  fs (parse W doc self σ).2 !! fs_key W name <> Some (File b).
Proof.
  intros Hdoc Htmp Hwrite.
  rewrite (parse_after_write _ _ _ _ _ _ _ Hdoc Htmp Hwrite), try_finally_state.
  apply unlink_no_file.
Qed.

(** A text the codec cannot encode: the write raises inside the [with]
    block, before the [try], and the file stays behind. *)
Lemma parse_write_failure doc self σ name c σ1 :
  doc <> "" ->
  NamedTemporaryFile W (encoding self) "heideltime_" ".tmp" σ = (Ok (name, c), σ1) ->
  codec_encode c doc = None ->
  parse W doc self σ = (Raise (Builtin "UnicodeEncodeError"), σ1)
  /\ fs σ1 !! fs_key W name = Some (File []).
Proof.
  intros Hdoc Htmp Henc. split.
  - unfold parse. destruct (String.eqb_spec doc ""); [contradiction|].
    rewrite Htmp. unfold write. rewrite Henc. reflexivity.
  - apply NamedTemporaryFile_name in Htmp as (_ & _ & _ & ->).
    simpl. apply lookup_insert_eq.
Qed.
End Frames.

(** ** Initialization *)

Lemma dict_get_some (d : gmap string PyVal) k v default :
  d !! k = Some v -> dict_get d k default = v.
Proof. unfold dict_get. intros ->. reflexivity. Qed.

Lemma dict_get_none (d : gmap string PyVal) k default :
  d !! k = None -> dict_get d k default = default.
Proof. unfold dict_get. intros ->. reflexivity. Qed.

Section Exists.
Context (W : World).

Lemma py_exists_true σ p : path_exists W σ p = true -> py_exists W σ p = Ok true.
Proof.
  intros Hex. unfold py_exists.
  assert (Hstat : stat_error W σ p = None).
  { unfold path_exists in Hex. apply andb_prop in Hex as [Hstat _].
    apply (proj1 (bool_decide_eq_true _)) in Hstat. exact Hstat. }
  rewrite Hstat, Hex. reflexivity.
Qed.

Lemma py_exists_false σ p :
  stat_error W σ p = None -> path_exists W σ p = false -> py_exists W σ p = Ok false.
Proof. unfold py_exists. intros -> ->. reflexivity. Qed.

Lemma py_exists_error σ p e : stat_error W σ p = Some e -> py_exists W σ p = Raise e.
Proof. unfold py_exists. intros ->. reflexivity. Qed.

Lemma py_exists_inv σ p b : py_exists W σ p = Ok b -> path_exists W σ p = b.
Proof.
  unfold py_exists. destruct (stat_error W σ p); [discriminate|].
  intros [= <-]. reflexivity.
Qed.
End Exists.

Section Init.
Context (W : World).

(** C6, as amended.  Whatever the source of the configuration, once it
    is loaded as a mapping: when the tool path field is absent,
    [__init__] raises the [ValueError] that asks for it; when the field
    names a path the operating system looks up and does not find, it
    raises [FileNotFoundError] for that path, whatever the other fields
    hold.  Both are configuration errors.  When the look-up itself fails
    (a name too long, a directory that may not be searched), the
    exception of [exists] leaves the constructor. *)
Theorem init_requires_tool_path src σ d :
  _loadconfig W src σ = Ok (LDict d) ->
  (d !! "heideltime_path" = None ->
     __init__ W src σ =
       Raise (ValueError "Please specify the path to Heideltime.standalone.jar in the configuration")
     /\ error_kind (ValueError "Please specify the path to Heideltime.standalone.jar in the configuration")
        = Some ConfigurationError)
  /\ (forall p, d !! "heideltime_path" = Some (VStr p) ->
        (stat_error W σ (Path p) = None ->
         path_exists W σ (Path p) = false ->
         __init__ W src σ =
           Raise (FileNotFoundError ("HeidelTime jar file is not found at " +:+ as_posix (Path p)))
         /\ error_kind (FileNotFoundError ("HeidelTime jar file is not found at "
                                           +:+ as_posix (Path p)))
            = Some ConfigurationError)
        /\ (forall e, stat_error W σ (Path p) = Some e -> __init__ W src σ = Raise e)).
Proof.
  intros Hload. split.
  - intros Hnone. split; [|reflexivity].
    unfold __init__. rewrite Hload. cbn [bind].
    rewrite !(dict_get_none _ _ _ Hnone). reflexivity.
  - intros p Hp.
    split.
    + intros Hstat Hmissing. split; [|reflexivity].
      unfold __init__. rewrite Hload. cbn [bind].
      rewrite !(dict_get_some _ _ _ _ Hp).
      rewrite bool_decide_eq_false_2 by discriminate. cbn [bind py_Path].
      rewrite (py_exists_false W σ (Path p) Hstat Hmissing). reflexivity.
    + intros e He.
      unfold __init__. rewrite Hload. cbn [bind].
      rewrite !(dict_get_some _ _ _ _ Hp).
      rewrite bool_decide_eq_false_2 by discriminate. cbn [bind py_Path].
      rewrite (py_exists_error W σ (Path p) e He). reflexivity.
Qed.
End Init.

(** ** Setters *)

(** C8.  A language whose lowercase form is not one of the fifteen
    entries of [AVAILABLE_LANGUAGES]: [set_lang] raises a [ValueError], a
    validation error, and the object is the one it was called on. *)
Theorem set_lang_rejects s self :
  lower s ∉ AVAILABLE_LANGUAGES ->
  length AVAILABLE_LANGUAGES = 15%nat
  /\ exists msg,
       set_lang (VStr s) self = (Raise (ValueError msg), self)
       /\ error_kind (ValueError msg) = Some ValidationError
       /\ lang (set_lang (VStr s) self).2 = lang self.
Proof.
  intros Hout. split; [reflexivity|].
  unfold set_lang. rewrite bool_decide_eq_false_2 by exact Hout. simpl.
  eexists. repeat split.
Qed.

(** C9, as amended.  [set_config] never fails and changes the settings
    path only.  With [abs = false] and a path that does not start with a
    slash it stores the tool path followed by the components of the
    given path, which prints as the tool path, a slash and the given path
    (normalised); a path that starts with a slash is stored as it is
    given, not below the tool path.  With [abs = true] it stores the
    given path. *)
Theorem set_config_resolves conf_path abs self :
  (set_config conf_path abs self).1 = Ok tt
  /\ attributes (set_config conf_path abs self).2
     = (config self, heidel self, java self, start_date self,
        conf_heideltime (set_config conf_path abs self).2, doc_type self, lang self,
        output_type self, encoding self, verbosity self, interval_tagger self,
        locale self, pos_tagger self)
  /\ (abs = true -> conf_heideltime (set_config conf_path abs self).2 = Path conf_path)
  /\ (abs = false -> String.prefix "/" conf_path = true ->
      conf_heideltime (set_config conf_path abs self).2 = Path conf_path)
  /\ (abs = false -> String.prefix "/" conf_path = false ->
      root (conf_heideltime (set_config conf_path abs self).2) = root (heidel self)
      /\ parts (conf_heideltime (set_config conf_path abs self).2)
         = parts (heidel self) ++ parts (Path conf_path)
      /\ (parts (heidel self) <> [] -> parts (Path conf_path) <> [] ->
          as_posix (conf_heideltime (set_config conf_path abs self).2)
          = as_posix (heidel self) +:+ "/" +:+ as_posix (Path conf_path))).
Proof.
  split; [destruct abs; reflexivity|]. split; [destruct abs; reflexivity|].
  split; [intros ->; reflexivity|]. split.
  - intros -> Hslash. apply leading_slash_is_absolute in Hslash.
    cbn [set_config negb snd conf_heideltime with_conf_heideltime].
    unfold truediv. rewrite Hslash. reflexivity.
  - intros -> Hslash. apply no_leading_slash_is_relative in Hslash.
    cbn [set_config negb snd conf_heideltime with_conf_heideltime].
    apply truediv_relative. exact Hslash.
Qed.

(** C10.  [set_lang] succeeds on a language whose lowercase form is in
    the table and stores that lowercase form, which lowercasing leaves
    as it is; [set_type] and [out_type] test the lowercase form and
    store the value as given.  Each changes its own attribute only, and
    the stored values are the arguments after [-l], [-t] and [-o] on the
    command line. *)
Theorem stored_case s self :
  (lower s ∈ AVAILABLE_LANGUAGES ->
     (set_lang (VStr s) self).1 = Ok tt
     /\ attributes (set_lang (VStr s) self).2
        = (config self, heidel self, java self, start_date self, conf_heideltime self,
           doc_type self, VStr (lower s), output_type self, encoding self, verbosity self,
           interval_tagger self, locale self, pos_tagger self)
     /\ lower (lower s) = lower s
     /\ forall W tmp_file_path,
          take 2 (drop 4 (build_cmd W (set_lang (VStr s) self).2 tmp_file_path))
          = [AStr "-l"; AStr (lower s)])
  /\ (lower s ∈ AVAILABLE_DOCUMENT_TYPES ->
        (set_type (VStr s) self).1 = Ok tt
        /\ attributes (set_type (VStr s) self).2
           = (config self, heidel self, java self, start_date self, conf_heideltime self,
              VStr s, lang self, output_type self, encoding self, verbosity self,
              interval_tagger self, locale self, pos_tagger self)
        /\ forall W tmp_file_path,
             take 2 (drop 6 (build_cmd W (set_type (VStr s) self).2 tmp_file_path))
             = [AStr "-t"; AStr s])
  /\ (lower s ∈ AVAILABLE_OUTPUT_TYPES ->
        (out_type (VStr s) self).1 = Ok tt
        /\ attributes (out_type (VStr s) self).2
           = (config self, heidel self, java self, start_date self, conf_heideltime self,
              doc_type self, lang self, VStr s, encoding self, verbosity self,
              interval_tagger self, locale self, pos_tagger self)
        /\ forall W tmp_file_path,
             take 2 (drop 8 (build_cmd W (out_type (VStr s) self).2 tmp_file_path))
             = [AStr "-o"; AStr s])
  /\ (forall W tmp_file_path,
        take 6 (drop 4 (build_cmd W self tmp_file_path))
        = [AStr "-l"; AVal (lang self); AStr "-t"; AVal (doc_type self);
           AStr "-o"; AVal (output_type self)]).
Proof.
  split; [|split; [|split]].
  - intros Hin. unfold set_lang. rewrite bool_decide_eq_true_2 by assumption.
    cbn [negb fst snd]. split; [reflexivity|]. split; [reflexivity|].
    split; [apply lower_idempotent|].
    intros W tmp_file_path. rewrite build_cmd_parts. reflexivity.
  - intros Hin. unfold set_type. rewrite bool_decide_eq_true_2 by assumption.
    cbn [negb fst snd]. split; [reflexivity|]. split; [reflexivity|].
    intros W tmp_file_path. rewrite build_cmd_parts. reflexivity.
  - intros Hin. unfold out_type. rewrite bool_decide_eq_true_2 by assumption.
    cbn [negb fst snd]. split; [reflexivity|]. split; [reflexivity|].
    intros W tmp_file_path. rewrite build_cmd_parts. reflexivity.
  - intros W tmp_file_path. rewrite build_cmd_parts. reflexivity.
Qed.

(** ** parse *)

Section Parse.
Context (W : World).

(** C5, as amended.  With empty text [parse] raises the [ValueError]
    whose message is "No text provided to parse", a validation error,
    and the state of the machine is untouched: no file is written and no
    process is started. *)
Theorem parse_empty self σ :
  parse W "" self σ = (Raise (ValueError "No text provided to parse"), σ)
  /\ error_kind (ValueError "No text provided to parse") = Some ValidationError
  /\ fs (parse W "" self σ).2 = fs σ
  /\ invocations (parse W "" self σ).2 = invocations σ.
Proof. repeat split. Qed.
End Parse.

(** ** Dates *)

Section Dates.
Context (W : World).

(** C7.  [set_time] and [__init__] try the format with a four-digit
    year first and the one with a two-digit year second, and store the
    date of the first that parses; [set_time] changes no other
    attribute.  "2025/03/16" and "25/03/16" both store the day
    2025-03-16, which the command line carries as "2025-03-16" after
    [-dct]; "2025-03-16" matches neither format and is refused with a
    [ValueError], a validation error, whose message names the two
    formats. *)
Theorem date_formats self σ d p :
  (forall s,
     match strptime_Ymd s, strptime_ymd s with
     | Some day, _ | None, Some day =>
         (set_time s self).1 = Ok tt
         /\ attributes (set_time s self).2
            = (config self, heidel self, java self, day, conf_heideltime self, doc_type self,
               lang self, output_type self, encoding self, verbosity self,
               interval_tagger self, locale self, pos_tagger self)
     | None, None =>
         set_time s self
         = (Raise (ValueError "doc_time must be in format 'YYYY/MM/DD or YY/MM/DD'"), self)
     end)
  /\ (forall s, s = "2025/03/16" \/ s = "25/03/16" ->
        (set_time s self).1 = Ok tt
        /\ start_date (set_time s self).2 = mkDate 2025 3 16
        /\ forall tmp_file_path,
             take 2 (drop 14 (build_cmd W (set_time s self).2 tmp_file_path))
             = [AStr "-dct"; AStr "2025-03-16"])
  /\ set_time "2025-03-16" self
     = (Raise (ValueError "doc_time must be in format 'YYYY/MM/DD or YY/MM/DD'"), self)
  /\ error_kind (ValueError "doc_time must be in format 'YYYY/MM/DD or YY/MM/DD'")
     = Some ValidationError
  /\ strftime_Ymd W (mkDate 2025 3 16) = "2025-03-16"
  /\ (d !! "heideltime_path" = Some (VStr p) ->
      path_exists W σ (Path p) = true ->
      (d !! "start_date" = Some (VStr "2025-03-16") ->
         __init__ W (CfgDict d) σ
         = Raise (ValueError "start_date must be in format 'YYYY/MM/DD or YY/MM/DD'")
         /\ error_kind (ValueError "start_date must be in format 'YYYY/MM/DD or YY/MM/DD'")
            = Some ValidationError
         /\ contains "YYYY/MM/DD" "start_date must be in format 'YYYY/MM/DD or YY/MM/DD'" = true
         /\ contains " YY/MM/DD" "start_date must be in format 'YYYY/MM/DD or YY/MM/DD'" = true)
      /\ (forall s, s = "2025/03/16" \/ s = "25/03/16" ->
            d !! "start_date" = Some (VStr s) ->
            d !! "conf_heideltime" = None -> d !! "doc_type" = None ->
            d !! "lang" = None -> d !! "output_type" = None ->
            exists o, __init__ W (CfgDict d) σ = Ok o
                      /\ start_date o = mkDate 2025 3 16
                      /\ forall tmp_file_path,
                           take 2 (drop 14 (build_cmd W o tmp_file_path))
                           = [AStr "-dct"; AStr "2025-03-16"])).
Proof.
  split.
  { intros s. unfold set_time, strptime.
    destruct (strptime_Ymd s); [split; reflexivity|]. cbn.
    destruct (strptime_ymd s); [split; reflexivity | reflexivity]. }
  split.
  { intros s [-> | ->]; (split; [reflexivity|]); (split; [reflexivity|]);
      intros tmp_file_path; rewrite build_cmd_parts; reflexivity. }
  do 3 (split; [reflexivity|]).
  intros Hp Hexists. split.
  - intros Hs. split; [|repeat split].
    unfold __init__. cbn [_loadconfig bind].
    rewrite !(dict_get_some _ _ _ _ Hp), !(dict_get_some _ _ _ _ Hs).
    rewrite bool_decide_eq_false_2 by discriminate. cbn [bind py_Path].
    rewrite (py_exists_true W σ (Path p) Hexists). reflexivity.
  - intros s Hs Hdate Hconf Htype Hlang Hout.
    unfold __init__. cbn [_loadconfig bind].
    rewrite !(dict_get_some _ _ _ _ Hp), !(dict_get_some _ _ _ _ Hdate).
    rewrite !(dict_get_none _ _ _ Hconf), !(dict_get_none _ _ _ Htype),
      !(dict_get_none _ _ _ Hlang), !(dict_get_none _ _ _ Hout).
    rewrite bool_decide_eq_false_2 by discriminate. cbn [bind py_Path].
    rewrite (py_exists_true W σ (Path p) Hexists).
    destruct Hs as [-> | ->]; cbn; eexists;
      (split; [reflexivity|]); (split; [reflexivity|]);
      intros tmp_file_path; rewrite build_cmd_parts; reflexivity.
Qed.
End Dates.

(** ** The invocation *)

Section Invocation.
Context (W : World).

(** C4, as amended.  The command line starts with the runtime, [-jar],
    the absolute path of the file
    [de.unihd.dbs.heideltime.standalone.jar] under the tool path, the
    temporary file, then [-l], [-t], [-o], [-c], [-e] and [-dct] with
    their values, in this order; the optional arguments follow.  The
    value of [-dct] is what [strftime("%Y-%m-%d")] prints for the start
    date, which for a year from 1000 to 9999 is four digits, a hyphen,
    two digits, a hyphen and two digits.  [parse] starts at most one
    process, with this command line. *)
Theorem command_order self tmp_file_path :
  build_cmd W self tmp_file_path =
    [AVal (java self);
     AStr "-jar";
     AStr (as_posix (absolute (cwd W) (heidel self // "de.unihd.dbs.heideltime.standalone.jar")));
     AStr tmp_file_path;
     AStr "-l"; AVal (lang self);
     AStr "-t"; AVal (doc_type self);
     AStr "-o"; AVal (output_type self);
     AStr "-c"; APath (conf_heideltime self);
     AStr "-e"; AVal (encoding self);
     AStr "-dct"; AStr (strftime_Ymd W (start_date self))]
    ++ optional_args self
  /\ (forall doc σ,
       invocations (parse W doc self σ).2 = invocations σ
       \/ invocations (parse W doc self σ).2
          = invocations σ ++ [build_cmd W self (temp_path W "heideltime_" ".tmp" σ)])
  /\ (1000 <= year (start_date self) <= 9999 ->
      strftime_Ymd W (start_date self)
      = pad2 (year (start_date self) / 100) +:+ pad2 (year (start_date self) mod 100)
        +:+ "-" +:+ pad2 (month (start_date self)) +:+ "-" +:+ pad2 (day (start_date self))
      /\ String.length (strftime_Ymd W (start_date self)) = 10%nat).
Proof.
  split; [apply build_cmd_parts|].
  split; [|apply strftime_four_digits].
  intros doc σ. unfold parse.
  destruct (String.eqb doc ""); [left; reflexivity|].
  destruct (NamedTemporaryFile W _ _ _ σ) as [[[name c]|e] σ1] eqn:Htmp.
  - pose proof (NamedTemporaryFile_invocations W (encoding self) "heideltime_" ".tmp" σ) as Hlog.
    rewrite Htmp in Hlog. simpl in Hlog.
    apply NamedTemporaryFile_name in Htmp as (Hname & _ & _ & _).
    pose proof (write_invocations W name c doc σ1) as Hw.
    destruct (write W name c doc σ1) as [[[]|e] σ2]; simpl in Hw.
    + right. rewrite try_finally_state, unlink_invocations, run_tagger_invocations.
      rewrite Hw, Hlog, Hname. reflexivity.
    + left. simpl. congruence.
  - left. apply NamedTemporaryFile_failed in Htmp. subst σ1. reflexivity.
Qed.

(** C3, as amended.  Each optional argument is appended when, and only
    when, its attribute is true in Python's sense.  With the default
    values (verbosity and interval tagging false, no locale, secondary
    tagger "no") the command has no [-v], [-it] or [-locale] and ends
    with [-pos no], because the string "no" is not empty. *)
Theorem optional_flags self tmp_file_path :
  drop 16 (build_cmd W self tmp_file_path) =
    (if truthy (verbosity self) then [AStr "-v"] else []) ++
    (if truthy (interval_tagger self) then [AStr "-it"] else []) ++
    (if truthy (locale self) then [AStr "-locale"; AVal (locale self)] else []) ++
    (if truthy (pos_tagger self) then [AStr "-pos"; AVal (pos_tagger self)] else [])
  /\ (verbosity self = VBool false -> interval_tagger self = VBool false ->
      locale self = VNone -> pos_tagger self = VStr "no" ->
      drop 16 (build_cmd W self tmp_file_path) = [AStr "-pos"; AStr "no"]).
Proof.
  rewrite build_cmd_parts. split; [reflexivity|].
  intros Hv Hit Hloc Hpos. cbn [drop required_args app]. unfold optional_args.
  rewrite Hv, Hit, Hloc, Hpos. reflexivity.
Qed.

(** C1, as amended.  When the text has been written to its temporary
    file, the child process runs to its end and the file can be removed:
    on exit status zero the outcome of [parse] is the outcome of
    decoding the standard output with the configured encoding (the
    decoded text, returned as it is, or the exception of the decoding);
    on a nonzero status with a standard error that is not empty, [parse]
    raises [RuntimeError], an execution error, whose message is
    "HeidelTime execution failed: " followed by the decoded standard
    error, and when that stream cannot be decoded the exception of the
    decoding leaves [parse] instead; on a nonzero status with an empty
    standard error the message ends with the text of the
    [CalledProcessError]. *)
Theorem parse_outcome doc self σ name c σ1 σ2 returncode stdout stderr f :
  doc <> "" ->
  NamedTemporaryFile W (encoding self) "heideltime_" ".tmp" σ = (Ok (name, c), σ1) ->
  write W name c doc σ1 = (Ok tt, σ2) ->
  run_child W (build_cmd W self name) (fs σ2) = (Exited returncode stdout stderr, f) ->
  f !! fs_key W name <> Some Dir ->
  (returncode = 0 ->
     (parse W doc self σ).1 = py_decode W (encoding self) stdout
     /\ (forall s, py_decode W (encoding self) stdout = Ok s -> (parse W doc self σ).1 = Ok s)
     /\ (forall enc codec, encoding self = VStr enc -> codecs W enc = Some codec ->
         codec_decode codec stdout = None ->
         (parse W doc self σ).1 = Raise (Builtin "UnicodeDecodeError")))
  /\ (returncode <> 0 -> stderr <> [] ->
      (forall s, py_decode W (encoding self) stderr = Ok s ->
         (parse W doc self σ).1 = Raise (RuntimeError ("HeidelTime execution failed: " +:+ s))
         /\ contains s ("HeidelTime execution failed: " +:+ s) = true
         /\ error_kind (RuntimeError ("HeidelTime execution failed: " +:+ s))
            = Some ExecutionError)
      /\ (forall e, py_decode W (encoding self) stderr = Raise e ->
          (parse W doc self σ).1 = Raise e)
      /\ (forall enc codec, encoding self = VStr enc -> codecs W enc = Some codec ->
          codec_decode codec stderr = None ->
          (parse W doc self σ).1 = Raise (Builtin "UnicodeDecodeError")))
  /\ (returncode <> 0 -> stderr = [] ->
        (parse W doc self σ).1
        = Raise (RuntimeError ("HeidelTime execution failed: "
                               +:+ cpe_str W (build_cmd W self name) returncode))).
Proof.
  intros Hdoc Htmp Hwrite Hrun Hnodir.
  rewrite (parse_after_write W _ _ _ _ _ _ _ Hdoc Htmp Hwrite).
  rewrite try_finally_outcome
    by (apply unlink_ok; rewrite (run_tagger_fs W _ _ _ _ _ Hrun); exact Hnodir).
  unfold run_tagger, run. rewrite Hrun.
  assert (Hundecodable : forall enc codec b,
            encoding self = VStr enc -> codecs W enc = Some codec ->
            codec_decode codec b = None ->
            py_decode W (encoding self) b = Raise (Builtin "UnicodeDecodeError")).
  { intros enc codec b Henc Hcodec Hnone. unfold py_decode.
    rewrite Henc, Hcodec, Hnone. reflexivity. }
  split; [|split].
  - intros ->. cbn [Z.eqb fst]. split; [reflexivity|]. split.
    + intros s Hs. exact Hs.
    + intros enc codec Henc Hcodec Hnone. eapply Hundecodable; eassumption.
  - intros Hrc Herr.
    destruct (Z.eqb_spec returncode 0); [contradiction|].
    rewrite bool_decide_eq_false_2 by assumption. cbn [negb].
    split; [|split].
    + intros s Hs. split; [|split; [apply contains_app_r | reflexivity]].
      rewrite Hs. reflexivity.
    + intros e He. rewrite He. reflexivity.
    + intros enc codec Henc Hcodec Hnone.
      rewrite (Hundecodable enc codec stderr Henc Hcodec Hnone). reflexivity.
  - intros Hrc ->. destruct (Z.eqb_spec returncode 0); [contradiction|]. reflexivity.
Qed.
End Invocation.

(** ** The properties at work in concrete worlds *)

Module Examples.
Import Demo.

(** [__init__] on the demonstration mappings. *)
Lemma init_default child :
  __init__ (world child) (CfgDict default_config) disk = Ok default_wrapper.
Proof. vm_compute. reflexivity. Qed.

Lemma init_conf child enc :
  enc = "ascii" \/ enc = "latin-1" ->
  __init__ (world child) (CfgDict (conf enc)) disk = Ok (wrapper enc).
Proof. intros [-> | ->]; vm_compute; reflexivity. Qed.

(** C1, instances: a tagger that answers, one that crashes with
    "tagger crashed" on standard error, one that fails silently, and one
    whose answer cannot be decoded. *)
Lemma parse_outcome_witness :
  (parse answering "hello" (wrapper "ascii") disk).1 = Ok "<TimeML>ok</TimeML>"
  /\ (parse crashing "hello" (wrapper "ascii") disk).1
     = Raise (RuntimeError "HeidelTime execution failed: tagger crashed")
  /\ (parse silent "hello" (wrapper "ascii") disk).1
     = Raise (RuntimeError "HeidelTime execution failed: Command returned non-zero exit status.")
  /\ (parse garbled_output "hello" (wrapper "ascii") disk).1
     = Raise (Builtin "UnicodeDecodeError").
Proof.
  split; [|split; [|split]].
  - destruct (parse_outcome answering "hello" (wrapper "ascii") disk tmp ascii_codec
                created written 0 (list_byte_of_string "<TimeML>ok</TimeML>") []
                (fs written)) as (Hzero & _ & _).
    + discriminate.
    + vm_compute. reflexivity.
    + vm_compute. reflexivity.
    + reflexivity.
    + vm_compute. discriminate.
    + destruct (Hzero eq_refl) as (_ & Hok & _). apply Hok. vm_compute. reflexivity.
  - destruct (parse_outcome crashing "hello" (wrapper "ascii") disk tmp ascii_codec
                created written 1 [] (list_byte_of_string "tagger crashed")
                (fs written)) as (_ & Hfail & _).
    + discriminate.
    + vm_compute. reflexivity.
    + vm_compute. reflexivity.
    + reflexivity.
    + vm_compute. discriminate.
    + destruct Hfail as (Hmsg & _ & _); [lia | discriminate |].
      apply (Hmsg "tagger crashed"). vm_compute. reflexivity.
  - destruct (parse_outcome silent "hello" (wrapper "ascii") disk tmp ascii_codec
                created written 2 [] [] (fs written)) as (_ & _ & Hsilent).
    + discriminate.
    + vm_compute. reflexivity.
    + vm_compute. reflexivity.
    + reflexivity.
    + vm_compute. discriminate.
    + apply Hsilent; [lia | reflexivity].
  - destruct (parse_outcome garbled_output "hello" (wrapper "ascii") disk tmp ascii_codec
                created written 0 (list_byte_of_string (String (chr 255) "")) []
                (fs written)) as (Hzero & _ & _).
    + discriminate.
    + vm_compute. reflexivity.
    + vm_compute. reflexivity.
    + reflexivity.
    + vm_compute. discriminate.
    + destruct (Hzero eq_refl) as (_ & _ & Hbad).
      apply (Hbad "ascii" ascii_codec); [reflexivity | reflexivity |].
      vm_compute. reflexivity.
Defined.

(** C1, the claim as stated fails: the tagger exits with status 1 and its
    standard error is the byte 255, which the [ascii] codec cannot decode.
    The [UnicodeDecodeError] of the handler leaves [parse]; no
    [RuntimeError] is raised. *)
Lemma undecodable_stderr_escapes :
  (parse garbled "hello" (wrapper "ascii") disk).1 = Raise (Builtin "UnicodeDecodeError")
  /\ error_kind (Builtin "UnicodeDecodeError") = None
  /\ forall msg, (parse garbled "hello" (wrapper "ascii") disk).1 <> Raise (RuntimeError msg).
Proof.
  assert (H : (parse garbled "hello" (wrapper "ascii") disk).1 = Raise (Builtin "UnicodeDecodeError"))
    by (vm_compute; reflexivity).
  split; [exact H|]. split; [reflexivity|].
  intros msg. rewrite H. discriminate.
Qed.

(** C2, the failing run: the codec is [ascii] and the text is U+00E9.
    The temporary file is created, the write raises [UnicodeEncodeError]
    before the [try] block is entered, and the file, which was not on the
    disk before, is on it after the call; no process was started. *)
Theorem unencodable_text_leaves_file :
  parse answering e_acute (wrapper "ascii") disk = (Raise (Builtin "UnicodeEncodeError"), created)
  /\ fs disk !! tmp = None
  /\ fs created !! tmp = Some (File [])
  /\ invocations created = [].
Proof.
  split; [|split; [|split]].
  - apply (parse_write_failure answering e_acute (wrapper "ascii") disk tmp ascii_codec created).
    + discriminate.
    + vm_compute. reflexivity.
    + vm_compute. reflexivity.
  - vm_compute. reflexivity.
  - vm_compute. reflexivity.
  - reflexivity.
Qed.

(** C3, instance: the object of the default configuration. *)
Lemma optional_flags_witness :
  drop 16 (build_cmd answering default_wrapper tmp) = [AStr "-pos"; AStr "no"].
Proof.
  exact (proj2 (optional_flags answering default_wrapper tmp) eq_refl eq_refl eq_refl eq_refl).
Defined.

(** C3, the claim as stated fails: the object built from the default
    configuration has the default values of the four options, and its
    command line contains [-pos]. *)
Lemma default_command_has_pos :
  __init__ answering (CfgDict default_config) disk = Ok default_wrapper
  /\ verbosity default_wrapper = VBool false
  /\ interval_tagger default_wrapper = VBool false
  /\ locale default_wrapper = VNone
  /\ pos_tagger default_wrapper = VStr "no"
  /\ build_cmd answering default_wrapper tmp !! 16%nat = Some (AStr "-pos")
  /\ build_cmd answering default_wrapper tmp !! 17%nat = Some (AStr "no").
Proof. split; [apply init_default|]. repeat split. Qed.

(** C4, the claim as stated fails: the tool path of the configuration is
    "/opt/heideltime", and the argument after [-jar] is the path of the jar
    file below it. *)
Lemma jar_argument_is_not_tool_path :
  config default_wrapper !! "heideltime_path" = Some (VStr "/opt/heideltime")
  /\ as_posix (heidel default_wrapper) = "/opt/heideltime"
  /\ build_cmd answering default_wrapper tmp !! 2%nat
     = Some (AStr "/opt/heideltime/de.unihd.dbs.heideltime.standalone.jar")
  /\ build_cmd answering default_wrapper tmp !! 2%nat <> Some (AStr "/opt/heideltime").
Proof.
  split; [vm_compute; reflexivity|]. split; [reflexivity|].
  split; [reflexivity|]. vm_compute. discriminate.
Qed.

(** C4, instance: the date of the default object on the command line. *)
Lemma command_order_witness :
  strftime_Ymd answering (start_date default_wrapper) = "2025-03-16"
  /\ String.length (strftime_Ymd answering (start_date default_wrapper)) = 10%nat.
Proof.
  destruct (command_order answering default_wrapper tmp) as (_ & _ & Hdate).
  destruct Hdate as [Htext Hlength]; [cbn; lia|].
  split; [rewrite Htext; reflexivity | exact Hlength].
Defined.

(** C5, the claim as stated fails: the message of the error is not
    "no text provided". *)
Lemma empty_text_message :
  (parse answering "" default_wrapper disk).1 = Raise (ValueError "No text provided to parse")
  /\ (parse answering "" default_wrapper disk).1 <> Raise (ValueError "no text provided").
Proof. split; [reflexivity|]. vm_compute. discriminate. Qed.

(** C6, instances: the empty mapping, and a tool path that is not on the
    disk. *)
Lemma init_requires_tool_path_witness :
  __init__ answering (CfgDict ∅) disk
    = Raise (ValueError "Please specify the path to Heideltime.standalone.jar in the configuration")
  /\ __init__ answering (CfgDict misplaced) disk
     = Raise (FileNotFoundError "HeidelTime jar file is not found at /nowhere").
Proof.
  split.
  - exact (proj1 (proj1 (init_requires_tool_path answering (CfgDict ∅) disk ∅ eq_refl) eq_refl)).
  - destruct (init_requires_tool_path answering (CfgDict misplaced) disk misplaced eq_refl)
      as (_ & Hpath).
    destruct (Hpath "/nowhere") as (Hmissing & _).
    + vm_compute. reflexivity.
    + destruct Hmissing as (Hraise & _).
      * vm_compute. reflexivity.
      * vm_compute. reflexivity.
      * exact Hraise.
Defined.

(** C6, the claim as stated fails: the tool path is a name of 256
    letters, which is not on the disk; the look-up of [exists] fails
    with [OSError] (the name is too long) and that exception, neither
    the wrapper's [FileNotFoundError] nor its [ValueError], leaves the
    constructor. *)
Lemma overlong_tool_path_raises_oserror :
  fs disk !! fs_key answering overlong = None
  /\ __init__ answering (CfgDict unreachable) disk = Raise (Builtin "OSError")
  /\ error_kind (Builtin "OSError") = None
  /\ (forall msg, __init__ answering (CfgDict unreachable) disk <> Raise (FileNotFoundError msg))
  /\ (forall msg, __init__ answering (CfgDict unreachable) disk <> Raise (ValueError msg)).
Proof.
  assert (H : __init__ answering (CfgDict unreachable) disk = Raise (Builtin "OSError"))
    by (vm_compute; reflexivity).
  split; [vm_compute; reflexivity|]. split; [exact H|]. split; [reflexivity|].
  split; intros msg; rewrite H; discriminate.
Qed.

(** C7, instances: the wrong separator and the two-digit year in
    [__init__]; the two-digit year in [set_time], on an object that holds
    another date. *)
Lemma date_formats_witness :
  __init__ answering (CfgDict (dated "2025-03-16")) disk
    = Raise (ValueError "start_date must be in format 'YYYY/MM/DD or YY/MM/DD'")
  /\ (exists o,
        __init__ answering (CfgDict (dated "25/03/16")) disk = Ok o
        /\ start_date o = mkDate 2025 3 16)
  /\ start_date older = mkDate 1999 12 31
  /\ start_date (set_time "25/03/16" older).2 = mkDate 2025 3 16
  /\ take 2 (drop 14 (build_cmd answering (set_time "25/03/16" older).2 tmp))
     = [AStr "-dct"; AStr "2025-03-16"].
Proof.
  split; [|split; [|split; [reflexivity|]]].
  - destruct (date_formats answering older disk (dated "2025-03-16") tool)
      as (_ & _ & _ & _ & _ & Hinit).
    destruct Hinit as (Hbad & _).
    + vm_compute. reflexivity.
    + vm_compute. reflexivity.
    + destruct Hbad as (Hraise & _); [vm_compute; reflexivity | exact Hraise].
  - destruct (date_formats answering older disk (dated "25/03/16") tool)
      as (_ & _ & _ & _ & _ & Hinit).
    destruct Hinit as (_ & Hgood).
    + vm_compute. reflexivity.
    + vm_compute. reflexivity.
    + destruct (Hgood "25/03/16") as (o & Hinit & Hdate & _).
      * right. reflexivity.
      * vm_compute. reflexivity.
      * vm_compute. reflexivity.
      * vm_compute. reflexivity.
      * vm_compute. reflexivity.
      * vm_compute. reflexivity.
      * exists o. split; assumption.
  - destruct (date_formats answering older disk (dated "25/03/16") tool)
      as (_ & Hset & _).
    destruct (Hset "25/03/16") as (_ & Hdate & Hcmd); [right; reflexivity|].
    split; [exact Hdate | apply Hcmd].
Defined.

(** C8, instance: a language that is not in the list. *)
Lemma set_lang_rejects_witness :
  exists msg, set_lang (VStr "Klingon") default_wrapper = (Raise (ValueError msg), default_wrapper).
Proof.
  destruct (set_lang_rejects "Klingon" default_wrapper) as (_ & msg & Hraise & _).
  - apply (proj1 (bool_decide_eq_false (lower "Klingon" ∈ AVAILABLE_LANGUAGES))).
    vm_compute. reflexivity.
  - exists msg. exact Hraise.
Defined.

(** C9, instance: a settings file in a directory below the tool
    directory. *)
Lemma set_config_resolves_witness :
  as_posix (conf_heideltime (set_config "conf/config_fr.props" false default_wrapper).2)
  = "/opt/heideltime/conf/config_fr.props".
Proof.
  destruct (set_config_resolves "conf/config_fr.props" false default_wrapper)
    as (_ & _ & _ & _ & Hrelative).
  destruct Hrelative as (_ & _ & Htext); [reflexivity | reflexivity |].
  rewrite Htext.
  - reflexivity.
  - vm_compute. discriminate.
  - vm_compute. discriminate.
Defined.

(** C9, the claim as stated fails: with [abs = false] a settings path
    that starts with a slash is stored as it is given; the stored path
    is not below the tool path and does not print as the tool path, a
    slash and the given path. *)
Lemma absolute_settings_path_is_not_joined :
  as_posix (heidel default_wrapper) = "/opt/heideltime"
  /\ as_posix (conf_heideltime (set_config "/etc/heideltime/config.props" false default_wrapper).2)
     = "/etc/heideltime/config.props"
  /\ as_posix (conf_heideltime (set_config "/etc/heideltime/config.props" false default_wrapper).2)
     <> as_posix (heidel default_wrapper) +:+ "/" +:+ "/etc/heideltime/config.props"
  /\ take 2 (parts (conf_heideltime
                      (set_config "/etc/heideltime/config.props" false default_wrapper).2))
     <> parts (heidel default_wrapper).
Proof.
  split; [reflexivity|]. split; [reflexivity|].
  split; vm_compute; discriminate.
Qed.

(** C10, instances: mixed case for each of the three setters, on an
    object that holds other values. *)
Lemma stored_case_witness :
  (lang older = VStr "english"
   /\ lang (set_lang (VStr "FRENCH") older).2 = VStr "french"
   /\ take 2 (drop 4 (build_cmd answering (set_lang (VStr "FRENCH") older).2 tmp))
      = [AStr "-l"; AStr "french"])
  /\ (doc_type older = VStr "news"
      /\ doc_type (set_type (VStr "Scientific") older).2 = VStr "Scientific")
  /\ (output_type older = VStr "xmi"
      /\ output_type (out_type (VStr "TimeML") older).2 = VStr "TimeML").
Proof.
  split; [|split].
  - destruct (stored_case "FRENCH" older) as (Hlang & _).
    destruct Hlang as (_ & Hattr & _ & Hcmd).
    + apply (proj1 (bool_decide_eq_true (lower "FRENCH" ∈ AVAILABLE_LANGUAGES))).
      vm_compute. reflexivity.
    + split; [reflexivity|]. split; [|apply Hcmd].
      apply (f_equal (fun t => t.1.1.1.1.1.1.2)) in Hattr. exact Hattr.
  - destruct (stored_case "Scientific" older) as (_ & Htype & _).
    destruct Htype as (_ & Hattr & _).
    + apply (proj1 (bool_decide_eq_true (lower "Scientific" ∈ AVAILABLE_DOCUMENT_TYPES))).
      vm_compute. reflexivity.
    + split; [reflexivity|].
      apply (f_equal (fun t => t.1.1.1.1.1.1.1.2)) in Hattr. exact Hattr.
  - destruct (stored_case "TimeML" older) as (_ & _ & Hout & _).
    destruct Hout as (_ & Hattr & _).
    + apply (proj1 (bool_decide_eq_true (lower "TimeML" ∈ AVAILABLE_OUTPUT_TYPES))).
      vm_compute. reflexivity.
    + split; [reflexivity|].
      apply (f_equal (fun t => t.1.1.1.1.1.2)) in Hattr. exact Hattr.
Defined.

End Examples.


(** * Further properties *)

(** ** Construction *)

Lemma call_ok (m : Method unit) self self' :
  call m self = Ok self' -> m self = (Ok tt, self').
Proof.
  unfold call. destruct (m self) as [[[]|e] o]; [|discriminate].
  intros [= ->]. reflexivity.
Qed.

Lemma set_type_ok v self self' :
  set_type v self = (Ok tt, self') ->
  chosen AVAILABLE_DOCUMENT_TYPES true v = true /\ self' = with_doc_type v self.
Proof.
  unfold set_type, chosen. destruct v as [| | |s]; try discriminate.
  destruct (bool_decide (lower s ∈ AVAILABLE_DOCUMENT_TYPES)); [|discriminate].
  intros [= <-]. split; reflexivity.
Qed.

Lemma out_type_ok v self self' :
  out_type v self = (Ok tt, self') ->
  chosen AVAILABLE_OUTPUT_TYPES true v = true /\ self' = with_output_type v self.
Proof.
  unfold out_type, chosen. destruct v as [| | |s]; try discriminate.
  destruct (bool_decide (lower s ∈ AVAILABLE_OUTPUT_TYPES)); [|discriminate].
  intros [= <-]. split; reflexivity.
Qed.

Lemma set_lang_ok v self self' :
  set_lang v self = (Ok tt, self') ->
  chosen AVAILABLE_LANGUAGES true v = true
  /\ exists s, v = VStr s /\ self' = with_lang (VStr (lower s)) self.
Proof.
  unfold set_lang, chosen. destruct v as [| | |s]; try discriminate.
  destruct (bool_decide (lower s ∈ AVAILABLE_LANGUAGES)) eqn:Hin; [|discriminate].
  intros [= <-]. split; [reflexivity|]. exists s. split; reflexivity.
Qed.

(** The converse directions: an accepted value makes the setter succeed. *)
Lemma set_type_chosen v self :
  chosen AVAILABLE_DOCUMENT_TYPES true v = true ->
  set_type v self = (Ok tt, with_doc_type v self).
Proof.
  unfold set_type, chosen. destruct v as [| | |s]; try discriminate.
  intros ->. reflexivity.
Qed.

Lemma out_type_chosen v self :
  chosen AVAILABLE_OUTPUT_TYPES true v = true ->
  out_type v self = (Ok tt, with_output_type v self).
Proof.
  unfold out_type, chosen. destruct v as [| | |s]; try discriminate.
  intros ->. reflexivity.
Qed.


Section Construction.
Context (W : World).

(** The start date step of [__init__] succeeds exactly on the values
    [date_ok] accepts. *)
Lemma start_date_step v :
  (exists day,
     (if truthy v then
        try_except_ValueError (strptime v Ymd)
          (try_except_ValueError (strptime v ymd)
             (Raise (ValueError "start_date must be in format 'YYYY/MM/DD or YY/MM/DD'")))
      else Ok (today W)) = Ok day)
  <-> date_ok v = true.
Proof.
  unfold date_ok, strptime. destruct v as [|[]|z|s]; cbn [truthy negb orb].
  - split; [reflexivity | eauto].
  - split; [intros [day H]; discriminate | discriminate].
  - split; [reflexivity | eauto].
  - destruct (negb (z =? 0)); cbn [negb orb].
    + split; [intros [day H]; discriminate | discriminate].
    + split; [reflexivity | eauto].
  - destruct (negb (String.eqb s "")); cbn [negb orb]; [|split; [reflexivity | eauto]].
    destruct (strptime_Ymd s) as [d1|]; cbn.
    + split; [reflexivity | eauto].
    + destruct (strptime_ymd s) as [d2|]; cbn.
      * split; [reflexivity | eauto].
      * split; [intros [day H]; discriminate | discriminate].
Qed.

Lemma conf_step v (hp : PurePath) :
  (exists cf, (if bool_decide (v = VNone) then Ok (hp // "config.props") else py_Path v) = Ok cf)
  <-> path_ok v = true.
Proof.
  destruct v as [|b|z|s]; cbn; split; eauto; try discriminate; intros [cf H]; discriminate.
Qed.

(** Success of [__init__], taken apart. *)
Lemma init_ok_inv src σ o :
  __init__ W src σ = Ok o ->
  exists d p s,
    _loadconfig W src σ = Ok (LDict d)
    /\ dict_get d "heideltime_path" VNone = VStr p
    /\ dict_get d "lang" (VStr "french") = VStr s
    /\ acceptable W σ d = true
    /\ config o = d /\ heidel o = Path p
    /\ java o = dict_get d "java_path" (VStr "java")
    /\ (if truthy (dict_get d "start_date" VNone) then
          try_except_ValueError (strptime (dict_get d "start_date" VNone) Ymd)
            (try_except_ValueError (strptime (dict_get d "start_date" VNone) ymd)
               (Raise (ValueError "start_date must be in format 'YYYY/MM/DD or YY/MM/DD'")))
        else Ok (today W)) = Ok (start_date o)
    /\ (if bool_decide (dict_get d "conf_heideltime" VNone = VNone)
        then Ok (Path p // "config.props")
        else py_Path (dict_get d "conf_heideltime" VNone)) = Ok (conf_heideltime o)
    /\ doc_type o = dict_get d "doc_type" (VStr "narratives")
    /\ lang o = VStr (lower s)
    /\ output_type o = dict_get d "output_type" (VStr "TIMEML")
    /\ encoding o = dict_get d "encoding" (VStr "UTF-8")
    /\ verbosity o = dict_get d "verbosity" (VBool false)
    /\ interval_tagger o = dict_get d "interval_tagger" (VBool false)
    /\ locale o = dict_get d "locale" VNone
    /\ pos_tagger o = dict_get d "pos_tagger" (VStr "no").
Proof.
  unfold __init__.
  destruct (_loadconfig W src σ) as [[d|]|e]; cbn [bind]; try discriminate.
  destruct (bool_decide (dict_get d "heideltime_path" VNone = VNone)); [discriminate|].
  destruct (dict_get d "heideltime_path" VNone) as [| | |p] eqn:Hp; cbn [bind py_Path];
    try discriminate.
  destruct (py_exists W σ (Path p)) as [found|e] eqn:Hfound; cbn [bind]; [|discriminate].
  apply py_exists_inv in Hfound. rename Hfound into Hex.
  destruct found; cbn [negb]; [|discriminate].
  destruct (if truthy _ then _ else _) as [sd|e] eqn:Hsd; cbn [bind]; [|discriminate].
  destruct (if bool_decide _ then _ else _) as [cf|e] eqn:Hcf; cbn [bind]; [|discriminate].
  cbn [doc_type lang output_type].
  destruct (call (set_type _) _) as [o1|e] eqn:H1; cbn [bind]; [|discriminate].
  destruct (call (set_lang (lang o1)) o1) as [o2|e] eqn:H2; cbn [bind]; [|discriminate].
  destruct (call (out_type (output_type o2)) o2) as [o3|e] eqn:H3; cbn [bind]; [|discriminate].
  intros [= <-].
  apply call_ok, set_type_ok in H1 as [Ht ->].
  apply call_ok, set_lang_ok in H2 as (Hl & s & Hs & ->).
  apply call_ok, out_type_ok in H3 as [Ho ->].
  cbn in Hs, Hl, Ho.
  exists d, p, s. split; [reflexivity|]. split; [exact Hp|]. split; [exact Hs|].
  split.
  { unfold acceptable. rewrite Hp, Hex, Ht, Hl, Ho.
    rewrite (proj1 (start_date_step _) (ex_intro _ sd Hsd)).
    rewrite (proj1 (conf_step _ _) (ex_intro _ cf Hcf)). reflexivity. }
  cbn [config heidel java start_date conf_heideltime doc_type lang output_type encoding
       verbosity interval_tagger locale pos_tagger with_output_type with_lang with_doc_type].
  repeat split; assumption.
Qed.


(** X1.  An object [__init__] has built satisfies the invariant; its tool
    path exists, and its language is a lowercase entry of
    [AVAILABLE_LANGUAGES]. *)
Theorem init_establishes_invariant src σ o :
  __init__ W src σ = Ok o ->
  validated o = true
  /\ path_exists W σ (heidel o) = true
  /\ exists l, lang o = VStr l /\ l ∈ AVAILABLE_LANGUAGES /\ lower l = l.
Proof.
  intros Hinit.
  destruct (init_ok_inv _ _ _ Hinit)
    as (d & p & s & _ & Hp & Hs & Hacc & _ & Hheidel & _ & _ & _ & Htype & Hlang & Hout & _).
  unfold acceptable in Hacc. rewrite Hp, Hs in Hacc.
  do 5 (apply andb_prop in Hacc as [Hacc ?]).
  assert (Hin : lower s ∈ AVAILABLE_LANGUAGES)
    by (apply (proj1 (bool_decide_eq_true _)); assumption).
  split; [|split].
  - unfold validated. rewrite Hlang, Htype, Hout. cbn [chosen].
    rewrite bool_decide_eq_true_2 by exact Hin.
    apply andb_true_intro; split; [apply andb_true_intro; split|]; auto.
  - rewrite Hheidel. exact Hacc.
  - exists (lower s). split; [exact Hlang|]. split; [exact Hin | apply lower_idempotent].
Qed.


(** X3.  The attributes that are not validated are the values of the
    mapping, with the defaults of the source for absent keys; the
    document type and the output type keep the case they were given in;
    the settings path defaults to [config.props] under the tool path and
    the start date to the current day. *)
Theorem init_reads_options src σ o :
  __init__ W src σ = Ok o ->
  java o = dict_get (config o) "java_path" (VStr "java")
  /\ encoding o = dict_get (config o) "encoding" (VStr "UTF-8")
  /\ verbosity o = dict_get (config o) "verbosity" (VBool false)
  /\ interval_tagger o = dict_get (config o) "interval_tagger" (VBool false)
  /\ locale o = dict_get (config o) "locale" VNone
  /\ pos_tagger o = dict_get (config o) "pos_tagger" (VStr "no")
  /\ doc_type o = dict_get (config o) "doc_type" (VStr "narratives")
  /\ output_type o = dict_get (config o) "output_type" (VStr "TIMEML")
  /\ (dict_get (config o) "conf_heideltime" VNone = VNone ->
      conf_heideltime o = heidel o // "config.props")
  /\ (forall c, dict_get (config o) "conf_heideltime" VNone = VStr c ->
      conf_heideltime o = Path c)
  /\ (truthy (dict_get (config o) "start_date" VNone) = false -> start_date o = today W).
Proof.
  intros Hinit.
  destruct (init_ok_inv _ _ _ Hinit)
    as (d & p & s & _ & _ & _ & _ & Hd & Hheidel & Hjava & Hdate & Hconf & Htype & _ & Hout
        & Henc & Hv & Hit & Hloc & Hpos).
  rewrite Hd, Hheidel.
  do 8 (split; [assumption|]).
  split; [|split].
  - intros Hnone. rewrite bool_decide_eq_true_2 in Hconf by exact Hnone.
    injection Hconf as <-. reflexivity.
  - intros c Hc. rewrite Hc in Hconf.
    rewrite bool_decide_eq_false_2 in Hconf by discriminate.
    injection Hconf as <-. reflexivity.
  - intros Hfalse. rewrite Hfalse in Hdate. congruence.
Qed.

(** X6.  The order of the checks: with the tool path, the start date and
    the settings path in order, a document type outside its table is
    reported whatever the language and the output type are; with a good
    document type, a language outside its table is reported whatever the
    output type is. *)
Theorem init_validation_order σ d p :
  dict_get d "heideltime_path" VNone = VStr p ->
  path_exists W σ (Path p) = true ->
  date_ok (dict_get d "start_date" VNone) = true ->
  path_ok (dict_get d "conf_heideltime" VNone) = true ->
  (forall t, dict_get d "doc_type" (VStr "narratives") = VStr t ->
     lower t ∉ AVAILABLE_DOCUMENT_TYPES ->
     __init__ W (CfgDict d) σ
     = Raise (ValueError ("Document type: " +:+ dquote +:+ t +:+ dquote +:+ " is not specified !"
                          +:+ "Please select one of those documents type:" +:+ newline
                          +:+ repr_list AVAILABLE_DOCUMENT_TYPES)))
  /\ (chosen AVAILABLE_DOCUMENT_TYPES true (dict_get d "doc_type" (VStr "narratives")) = true ->
      forall l, dict_get d "lang" (VStr "french") = VStr l ->
      lower l ∉ AVAILABLE_LANGUAGES ->
      __init__ W (CfgDict d) σ
      = Raise (ValueError ("Languague: " +:+ dquote +:+ " " +:+ l +:+ " " +:+ dquote
                           +:+ "is not supported in heideltime"
                           +:+ "Please chose one of the supported languagues:" +:+ newline
                           +:+ " " +:+ repr_list AVAILABLE_LANGUAGES))).
Proof.
  intros Hp Hex Hdate Hconf.
  apply start_date_step in Hdate as [sd Hsd].
  apply (conf_step _ (Path p)) in Hconf as [cf Hcf].
  assert (Hstart :
            __init__ W (CfgDict d) σ
            = (let self :=
                 {| config := d; heidel := Path p;
                    java := dict_get d "java_path" (VStr "java");
                    start_date := sd; conf_heideltime := cf;
                    doc_type := dict_get d "doc_type" (VStr "narratives");
                    lang := dict_get d "lang" (VStr "french");
                    output_type := dict_get d "output_type" (VStr "TIMEML");
                    encoding := dict_get d "encoding" (VStr "UTF-8");
                    verbosity := dict_get d "verbosity" (VBool false);
                    interval_tagger := dict_get d "interval_tagger" (VBool false);
                    locale := dict_get d "locale" VNone;
                    pos_tagger := dict_get d "pos_tagger" (VStr "no") |} in
               self <- call (set_type (doc_type self)) self ;;
               self <- call (set_lang (lang self)) self ;;
               self <- call (out_type (output_type self)) self ;;
               Ok self)).
  { unfold __init__. cbn [_loadconfig bind]. rewrite Hp.
    rewrite bool_decide_eq_false_2 by discriminate. cbn [bind py_Path].
    rewrite (py_exists_true W σ (Path p) Hex). cbn [bind negb].
    rewrite Hsd. cbn [bind]. rewrite Hcf. reflexivity. }
  rewrite Hstart. clear Hstart.
  cbn [bind doc_type lang]. split.
  - intros t Ht Hout. rewrite Ht. unfold call, set_type.
    rewrite bool_decide_eq_false_2 by exact Hout. reflexivity.
  - intros Htype l Hl Hout. unfold call at 1.
    rewrite set_type_chosen by exact Htype. cbn [bind lang with_doc_type].
    rewrite Hl. unfold call, set_lang.
    rewrite bool_decide_eq_false_2 by exact Hout. reflexivity.
Qed.

End Construction.

(** ** Setters, once more *)

Lemma languages_lowercase l : l ∈ AVAILABLE_LANGUAGES -> lower l = l.
Proof.
  assert (Hall : Forall (fun x => lower x = x) AVAILABLE_LANGUAGES)
    by (repeat constructor).
  intros Hin. exact (proj1 (Forall_forall _ _) Hall l Hin).
Qed.

Lemma with_lang_same self : with_lang (lang self) self = self.
Proof. destruct self; reflexivity. Qed.

Lemma with_doc_type_same self : with_doc_type (doc_type self) self = self.
Proof. destruct self; reflexivity. Qed.

Lemma with_output_type_same self : with_output_type (output_type self) self = self.
Proof. destruct self; reflexivity. Qed.

Lemma validated_parts self :
  validated self = true <->
  chosen AVAILABLE_LANGUAGES false (lang self) = true
  /\ chosen AVAILABLE_DOCUMENT_TYPES true (doc_type self) = true
  /\ chosen AVAILABLE_OUTPUT_TYPES true (output_type self) = true.
Proof.
  unfold validated. rewrite !andb_true_iff. tauto.
Qed.

(** X7.  Every setter keeps the invariant, whether it succeeds or
    raises: an object that was built by [__init__] and then changed
    through the setters always holds a valid language, document type and
    output type. *)
Theorem setters_keep_invariant self :
  validated self = true ->
  (forall v, validated (set_lang v self).2 = true)
  /\ (forall v, validated (set_type v self).2 = true)
  /\ (forall v, validated (out_type v self).2 = true)
  /\ (forall s, validated (set_time s self).2 = true)
  /\ (forall s, validated (set_encod s self).2 = true)
  /\ (forall s b, validated (set_config s b self).2 = true)
  /\ (forall b, validated (set_verbosity b self).2 = true)
  /\ (forall b, validated (set_interval_tagger b self).2 = true)
  /\ (forall s, validated (set_locale s self).2 = true)
  /\ (forall s, validated (set_pos_tagger s self).2 = true).
Proof.
  intros Hval.
  split; [|split; [|split; [|split; [|split; [|split]]]]].
  - intros v. unfold set_lang. destruct v as [| | |s]; try exact Hval.
    destruct (bool_decide (lower s ∈ AVAILABLE_LANGUAGES)) eqn:Hin; [|exact Hval].
    apply validated_parts in Hval as (_ & Ht & Ho).
    apply validated_parts. cbn. rewrite Hin. auto.
  - intros v. unfold set_type. destruct v as [| | |s]; try exact Hval.
    destruct (bool_decide (lower s ∈ AVAILABLE_DOCUMENT_TYPES)) eqn:Hin; [|exact Hval].
    apply validated_parts in Hval as (Hl & _ & Ho).
    apply validated_parts. cbn. rewrite Hin. auto.
  - intros v. unfold out_type. destruct v as [| | |s]; try exact Hval.
    destruct (bool_decide (lower s ∈ AVAILABLE_OUTPUT_TYPES)) eqn:Hin; [|exact Hval].
    apply validated_parts in Hval as (Hl & Ht & _).
    apply validated_parts. cbn. rewrite Hin. auto.
  - intros s. unfold set_time. destruct (try_except_ValueError _ _); exact Hval.
  - intros s. exact Hval.
  - intros s b. unfold set_config. destruct b; exact Hval.
  - repeat split; intros; exact Hval.
Qed.

(** X8.  A validating setter that raises has changed nothing, whatever
    its argument and its exception are; the six other setters never
    raise. *)
Theorem setter_failure_changes_nothing self e :
  (forall v, (set_lang v self).1 = Raise e -> (set_lang v self).2 = self)
  /\ (forall v, (set_type v self).1 = Raise e -> (set_type v self).2 = self)
  /\ (forall v, (out_type v self).1 = Raise e -> (out_type v self).2 = self)
  /\ (forall s, (set_time s self).1 = Raise e -> (set_time s self).2 = self)
  /\ (forall s b, (set_encod s self).1 = Ok tt /\ (set_config s b self).1 = Ok tt
                  /\ (set_verbosity b self).1 = Ok tt /\ (set_interval_tagger b self).1 = Ok tt
                  /\ (set_locale s self).1 = Ok tt /\ (set_pos_tagger s self).1 = Ok tt).
Proof.
  split; [|split; [|split; [|split]]].
  - intros v. unfold set_lang. destruct v as [| | |s]; try reflexivity.
    destruct (negb _); [reflexivity | discriminate].
  - intros v. unfold set_type. destruct v as [| | |s]; try reflexivity.
    destruct (negb _); [reflexivity | discriminate].
  - intros v. unfold out_type. destruct v as [| | |s]; try reflexivity.
    destruct (negb _); [reflexivity | discriminate].
  - intros s. unfold set_time. destruct (try_except_ValueError _ _); [discriminate | reflexivity].
  - intros s b. unfold set_config. destruct b; repeat split.
Qed.

(** X9.  Setting again what is stored is accepted and changes nothing:
    on an object that satisfies the invariant the three validating
    setters, applied to the stored values, return the same object. *)
Theorem setters_accept_stored_values self :
  validated self = true ->
  set_lang (lang self) self = (Ok tt, self)
  /\ set_type (doc_type self) self = (Ok tt, self)
  /\ out_type (output_type self) self = (Ok tt, self).
Proof.
  intros Hval. apply validated_parts in Hval as (Hl & Ht & Ho).
  split; [|split].
  - unfold chosen in Hl. destruct (lang self) as [| | |l] eqn:Hlang; try discriminate.
    apply (proj1 (bool_decide_eq_true _)) in Hl.
    unfold set_lang. rewrite (languages_lowercase l Hl).
    rewrite bool_decide_eq_true_2 by exact Hl. cbn [negb].
    rewrite <- Hlang, with_lang_same. reflexivity.
  - rewrite set_type_chosen by exact Ht. rewrite with_doc_type_same. reflexivity.
  - rewrite out_type_chosen by exact Ho. rewrite with_output_type_same. reflexivity.
Qed.

(** X10.  The validating setters do not depend on each other: for each
    of the six pairs among [set_lang], [set_type], [out_type] and
    [set_time], the outcome of one is the same before and after the
    other, and the object after both calls is the same in either
    order. *)
Theorem setters_commute (a b c : PyVal) (s : string) self :
  let after (m : Method unit) (o : HeidelTime) := (m o).2 in
  let independent (m n : Method unit) :=
    (n (after m self)).1 = (n self).1
    /\ (m (after n self)).1 = (m self).1
    /\ after n (after m self) = after m (after n self) in
  independent (set_lang a) (set_type b)
  /\ independent (set_lang a) (out_type c)
  /\ independent (set_type b) (out_type c)
  /\ independent (set_time s) (set_lang a)
  /\ independent (set_time s) (set_type b)
  /\ independent (set_time s) (out_type c).
Proof.
  cbv zeta. unfold set_lang, set_type, out_type, set_time.
  destruct a as [| | |la], b as [| | |ty], c as [| | |ou];
    try destruct (negb (bool_decide (lower la ∈ AVAILABLE_LANGUAGES)));
    try destruct (negb (bool_decide (lower ty ∈ AVAILABLE_DOCUMENT_TYPES)));
    try destruct (negb (bool_decide (lower ou ∈ AVAILABLE_OUTPUT_TYPES)));
    destruct (try_except_ValueError _ _); repeat split.
Qed.

(** ** The two date formats *)

Lemma orelse_inv {A} (x y : option A) r :
  orelse x y = Some r -> x = Some r \/ (x = None /\ y = Some r).
Proof. destruct x; cbn; intros H; [left; exact H | right; split; [reflexivity | exact H]]. Qed.

Lemma digit_in_range lo hi c d : digit_in lo hi c = Some d -> lo <= d <= hi.
Proof.
  unfold digit_in. destruct (digit c) as [x|]; [|discriminate].
  destruct ((lo <=? x) && (x <=? hi)) eqn:Hin; [|discriminate].
  apply andb_prop in Hin as [Hlo Hhi]. intros [= <-]. lia.
Qed.

Lemma digit_not_slash c d : digit c = Some d -> Ascii.eqb "/" c = false.
Proof.
  destruct c as [[] [] [] [] [] [] [] []]; vm_compute; intros H; try reflexivity; discriminate.
Qed.

Lemma digit_in_digit lo hi c d : digit_in lo hi c = Some d -> digit c = Some d.
Proof.
  unfold digit_in. destruct (digit c) as [x|]; [|discriminate].
  destruct ((lo <=? x) && (x <=? hi)); [|discriminate]. intros H; exact H.
Qed.

Section Inversion.
Context {A : Type}.

Lemma lit_inv c (k : string -> option A) s r :
  lit c k s = Some r -> exists s', s = String c s' /\ k s' = Some r.
Proof.
  unfold lit. destruct s as [|c' s']; [discriminate|].
  destruct (Ascii.eqb_spec c c') as [<-|]; [|discriminate].
  intros H. exists s'. split; [reflexivity | exact H].
Qed.

Lemma two_inv lo1 hi1 lo2 hi2 (k : Z -> string -> option A) s r :
  two lo1 hi1 lo2 hi2 k s = Some r ->
  exists c1 c2 a b s',
    s = String c1 (String c2 s')
    /\ digit_in lo1 hi1 c1 = Some a /\ digit_in lo2 hi2 c2 = Some b
    /\ k (10 * a + b) s' = Some r.
Proof.
  unfold two. destruct s as [|c1 [|c2 s']]; try discriminate.
  destruct (digit_in lo1 hi1 c1) as [a|] eqn:Ha; [|discriminate].
  destruct (digit_in lo2 hi2 c2) as [b|] eqn:Hb; [|discriminate].
  intros H. exists c1, c2, a, b, s'. auto.
Qed.

Lemma one_inv lo hi (k : Z -> string -> option A) s r :
  one lo hi k s = Some r ->
  exists c a s', s = String c s' /\ digit_in lo hi c = Some a /\ k a s' = Some r.
Proof.
  unfold one. destruct s as [|c s']; [discriminate|].
  destruct (digit_in lo hi c) as [a|] eqn:Ha; [|discriminate].
  intros H. exists c, a, s'. auto.
Qed.

(** What each directive hands to the rest of the expression. *)
Lemma re_m_inv (k : Z -> string -> option A) s r :
  re_m k s = Some r -> exists m s', 1 <= m <= 12 /\ k m s' = Some r.
Proof.
  unfold re_m. intros H.
  apply orelse_inv in H as [H | [_ H]];
    [|apply orelse_inv in H as [H | [_ H]]].
  - apply two_inv in H as (c1 & c2 & a & b & s' & _ & Ha & Hb & Hk).
    apply digit_in_range in Ha, Hb. exists (10 * a + b), s'. split; [lia | exact Hk].
  - apply two_inv in H as (c1 & c2 & a & b & s' & _ & Ha & Hb & Hk).
    apply digit_in_range in Ha, Hb. exists (10 * a + b), s'. split; [lia | exact Hk].
  - apply one_inv in H as (c & a & s' & _ & Ha & Hk).
    apply digit_in_range in Ha. exists a, s'. split; [lia | exact Hk].
Qed.

Lemma re_d_inv (k : Z -> string -> option A) s r :
  re_d k s = Some r -> exists d s', 1 <= d <= 31 /\ k d s' = Some r.
Proof.
  unfold re_d. intros H.
  apply orelse_inv in H as [H | [_ H]];
    [|apply orelse_inv in H as [H | [_ H]];
      [|apply orelse_inv in H as [H | [_ H]];
        [|apply orelse_inv in H as [H | [_ H]]]]].
  - apply two_inv in H as (c1 & c2 & a & b & s' & _ & Ha & Hb & Hk).
    apply digit_in_range in Ha, Hb. exists (10 * a + b), s'. split; [lia | exact Hk].
  - apply two_inv in H as (c1 & c2 & a & b & s' & _ & Ha & Hb & Hk).
    apply digit_in_range in Ha, Hb. exists (10 * a + b), s'. split; [lia | exact Hk].
  - apply two_inv in H as (c1 & c2 & a & b & s' & _ & Ha & Hb & Hk).
    apply digit_in_range in Ha, Hb. exists (10 * a + b), s'. split; [lia | exact Hk].
  - apply one_inv in H as (c & a & s' & _ & Ha & Hk).
    apply digit_in_range in Ha. exists a, s'. split; [lia | exact Hk].
  - apply lit_inv in H as (s1 & _ & H).
    apply one_inv in H as (c & a & s' & _ & Ha & Hk).
    apply digit_in_range in Ha. exists a, s'. split; [lia | exact Hk].
Qed.
End Inversion.

(** After the year: the fields of the match. *)
Lemma after_year_inv y s dt rest :
  lit "/" (re_m (fun m => lit "/" (re_d (fun d r => Some (mkDate y m d, r))))) s = Some (dt, rest) ->
  exists s', s = String "/" s'
             /\ year dt = y /\ 1 <= month dt <= 12 /\ 1 <= day dt <= 31.
Proof.
  intros H. apply lit_inv in H as (s1 & -> & H). exists s1. split; [reflexivity|].
  apply re_m_inv in H as (m & s2 & Hm & H).
  apply lit_inv in H as (s3 & _ & H).
  apply re_d_inv in H as (d & s4 & Hd & H).
  injection H as <- _. cbn. auto.
Qed.

Lemma match_Y_inv s dt rest :
  match_format re_Y s = Some (dt, rest) ->
  (exists c1 c2 c3 c4 x3 s',
      s = String c1 (String c2 (String c3 (String c4 (String "/" s')))) /\ digit c3 = Some x3)
  /\ 0 <= year dt <= 9999 /\ 1 <= month dt <= 12 /\ 1 <= day dt <= 31.
Proof.
  unfold match_format, re_Y. intros H.
  apply two_inv in H as (c1 & c2 & a & b & s1 & -> & Ha & Hb & H).
  apply two_inv in H as (c3 & c4 & c & e & s2 & -> & Hc & He & H).
  apply after_year_inv in H as (s3 & -> & Hy & Hm & Hd).
  split.
  - exists c1, c2, c3, c4, c, s3. split; [reflexivity|]. eapply digit_in_digit; eassumption.
  - apply digit_in_range in Ha, Hb, Hc, He. lia.
Qed.

Lemma match_y_inv s dt rest :
  match_format re_y s = Some (dt, rest) ->
  (exists c1 c2 s', s = String c1 (String c2 (String "/" s')))
  /\ 0 <= year dt <= 99 /\ 1 <= month dt <= 12 /\ 1 <= day dt <= 31.
Proof.
  unfold match_format, re_y. intros H.
  apply two_inv in H as (c1 & c2 & a & b & s1 & -> & Ha & Hb & H).
  apply after_year_inv in H as (s3 & -> & Hy & Hm & Hd).
  split.
  - exists c1, c2, s3. reflexivity.
  - apply digit_in_range in Ha, Hb. lia.
Qed.

(** X11.  No string is a date in both formats: when the four-digit
    format parses a string the two-digit format refuses it, so the order
    of the two attempts never changes the date that is stored. *)
Theorem formats_are_disjoint s d :
  strptime_Ymd s = Some d -> strptime_ymd s = None.
Proof.
  unfold strptime_Ymd, strptime_ymd, finish.
  destruct (match_format re_Y s) as [[dt rest]|] eqn:HY; [|discriminate]. intros _.
  apply match_Y_inv in HY as ((c1 & c2 & c3 & c4 & x3 & s' & -> & Hc3) & _).
  destruct (match_format re_y _) as [[dt' rest']|] eqn:Hy; [|reflexivity].
  apply match_y_inv in Hy as ((c1' & c2' & s'' & Heq) & _).
  injection Heq as _ _ Hslash _. subst c3. discriminate.
Qed.


Lemma digit_char_not_slash k : 0 <= k < 10 -> Ascii.eqb "/" (digit_char k) = false.
Proof.
  intros Hk.
  assert (Hcases : k = 0 \/ k = 1 \/ k = 2 \/ k = 3 \/ k = 4 \/ k = 5 \/ k = 6 \/ k = 7
                   \/ k = 8 \/ k = 9) by lia.
  repeat (destruct Hcases as [-> | Hcases]; [reflexivity|]). subst k. reflexivity.
Qed.

Section CommandDate.
Context (W : World).

(** X13.  The form in which the date goes to the tagger is not a form
    the wrapper reads: for every date with a year from 1000 to 9999,
    [set_time] refuses the text that [strftime("%Y-%m-%d")] prints, and
    the object is unchanged. *)
Theorem command_date_is_not_an_input d self :
  1000 <= year d <= 9999 ->
  strptime_Ymd (strftime_Ymd W d) = None
  /\ strptime_ymd (strftime_Ymd W d) = None
  /\ set_time (strftime_Ymd W d) self
     = (Raise (ValueError "doc_time must be in format 'YYYY/MM/DD or YY/MM/DD'"), self).
Proof.
  intros Hyear. rewrite (proj1 (strftime_four_digits W d Hyear)).
  set (text := pad2 (year d / 100) +:+ pad2 (year d mod 100)
               +:+ "-" +:+ pad2 (month d) +:+ "-" +:+ pad2 (day d)).
  assert (HY : strptime_Ymd text = None).
  { unfold strptime_Ymd, finish.
    destruct (match_format re_Y text) as [[dt rest]|] eqn:Hm; [|reflexivity].
    apply match_Y_inv in Hm as ((c1 & c2 & c3 & c4 & x3 & s' & Heq & _) & _).
    cbv [text pad2 String.append] in Heq. discriminate. }
  assert (Hy : strptime_ymd text = None).
  { unfold strptime_ymd, finish.
    destruct (match_format re_y text) as [[dt rest]|] eqn:Hm; [|reflexivity].
    apply match_y_inv in Hm as ((c1 & c2 & s' & Heq) & _).
    cbv [text pad2 String.append] in Heq.
    injection Heq as _ _ Hthird _.
    pose proof (digit_char_not_slash (year d mod 100 / 10 mod 10)
                  (Z.mod_pos_bound _ 10 eq_refl)) as Hne.
    rewrite Hthird in Hne. discriminate. }
  split; [exact HY|]. split; [exact Hy|].
  unfold set_time, strptime. rewrite HY, Hy. reflexivity.
Qed.
End CommandDate.

(** ** parse and the machine *)

Section Runs.
Context (W : World).

(** [parse] on non-empty text when the temporary name is free, the codec
    is known and the text can be encoded: the tagger runs on the state in
    which the file holds the encoded text, then the file is removed. *)
Lemma parse_run doc self σ c b :
  doc <> "" ->
  fs σ !! fs_key W (temp_path W "heideltime_" ".tmp" σ) = None ->
  lookup_codec W (encoding self) = Ok c ->
  codec_encode c doc = Some b ->
  parse W doc self σ
  = try_finally (run_tagger W self (temp_path W "heideltime_" ".tmp" σ))
      (unlink W (temp_path W "heideltime_" ".tmp" σ))
      (set_fs (<[fs_key W (temp_path W "heideltime_" ".tmp" σ) := File b]> (fs σ)) σ).
Proof.
  intros Hdoc Hfree Hcodec Henc. unfold parse.
  destruct (String.eqb_spec doc ""); [contradiction|].
  unfold NamedTemporaryFile. rewrite Hfree, Hcodec.
  unfold write. rewrite Henc. unfold set_fs. cbn [fs invocations].
  rewrite insert_insert_eq. reflexivity.
Qed.

(** The cases in which [parse] stops before the tagger. *)
Lemma parse_stops_early doc self σ :
  doc = ""
  \/ fs σ !! fs_key W (temp_path W "heideltime_" ".tmp" σ) <> None
  \/ (exists e, lookup_codec W (encoding self) = Raise e) ->
  (parse W doc self σ).2 = σ.
Proof.
  unfold parse. intros [-> | H]; [reflexivity|].
  destruct (String.eqb doc ""); [reflexivity|].
  destruct (NamedTemporaryFile W _ _ _ σ) as [[[name c]|e] σ1] eqn:Htmp.
  - apply NamedTemporaryFile_name in Htmp as (-> & Hfree & Hcodec & _).
    destruct H as [H | [e He]]; [contradiction | congruence].
  - apply NamedTemporaryFile_failed in Htmp. subst σ1. reflexivity.
Qed.

(** X14.  With a tagger that leaves the file system alone: whatever
    happens, [parse] changes no entry other than its temporary file; and
    when the text can be encoded, the file system after the call is the
    one before it. *)
Theorem parse_restores_file_system doc self σ :
  (forall cmd f, (run_child W cmd f).2 = f) ->
  (forall k, k <> fs_key W (temp_path W "heideltime_" ".tmp" σ) ->
     fs (parse W doc self σ).2 !! k = fs σ !! k)
  /\ ((forall c, lookup_codec W (encoding self) = Ok c -> codec_encode c doc <> None) ->
      fs (parse W doc self σ).2 = fs σ).
Proof.
  intros Hquiet.
  set (name := temp_path W "heideltime_" ".tmp" σ).
  destruct (String.eqb_spec doc "") as [Hempty|Hdoc].
  { rewrite (parse_stops_early doc self σ) by auto. auto. }
  destruct (fs σ !! fs_key W name) as [n|] eqn:Hfree.
  { rewrite (parse_stops_early doc self σ)
      by (right; left; fold name; rewrite Hfree; discriminate). auto. }
  destruct (lookup_codec W (encoding self)) as [c|e] eqn:Hcodec.
  2:{ rewrite (parse_stops_early doc self σ) by (right; right; eauto). auto. }
  destruct (codec_encode c doc) as [b|] eqn:Henc.
  - rewrite (parse_run doc self σ c b Hdoc Hfree Hcodec Henc). fold name.
    rewrite try_finally_state.
    assert (Hfs : fs (run_tagger W self name
                        (set_fs (<[fs_key W name := File b]> (fs σ)) σ)).2
                  = <[fs_key W name := File b]> (fs σ)).
    { destruct (run_child W (build_cmd W self name) (<[fs_key W name := File b]> (fs σ)))
        as [o f] eqn:Hrun.
      rewrite (run_tagger_fs W self name (set_fs (<[fs_key W name := File b]> (fs σ)) σ) o f Hrun).
      pose proof (Hquiet (build_cmd W self name) (<[fs_key W name := File b]> (fs σ))) as Hq.
      rewrite Hrun in Hq. exact Hq. }
    assert (Hall : fs (unlink W name
                         (run_tagger W self name
                            (set_fs (<[fs_key W name := File b]> (fs σ)) σ)).2).2 = fs σ).
    { unfold unlink. rewrite Hfs, lookup_insert_eq. cbn [snd fs set_fs]. rewrite ?Hfs.
      rewrite delete_insert_eq. apply delete_id. exact Hfree. }
    rewrite Hall. auto.
  - assert (Htmp : NamedTemporaryFile W (encoding self) "heideltime_" ".tmp" σ
                   = (Ok (name, c), set_fs (<[fs_key W name := File []]> (fs σ)) σ)).
    { unfold NamedTemporaryFile. fold name. rewrite Hfree, Hcodec. reflexivity. }
    destruct (parse_write_failure W doc self σ name c _ Hdoc Htmp Henc) as [-> _].
    split.
    + intros k Hk. cbn [snd fs set_fs]. apply lookup_insert_ne. congruence.
    + intros Hencodable. exfalso. exact (Hencodable c eq_refl Henc).
Qed.

(** X15.  When the runtime cannot be started, the exception of the
    attempt leaves [parse] as it is (it is not wrapped in a
    [RuntimeError]), and the temporary file is removed all the same. *)
Theorem parse_spawn_error doc self σ c b e f :
  doc <> "" ->
  fs σ !! fs_key W (temp_path W "heideltime_" ".tmp" σ) = None ->
  lookup_codec W (encoding self) = Ok c ->
  codec_encode c doc = Some b ->
  run_child W (build_cmd W self (temp_path W "heideltime_" ".tmp" σ))
    (<[fs_key W (temp_path W "heideltime_" ".tmp" σ) := File b]> (fs σ)) = (SpawnError e, f) ->
  f !! fs_key W (temp_path W "heideltime_" ".tmp" σ) <> Some Dir ->
  (parse W doc self σ).1 = Raise e
  /\ fs (parse W doc self σ).2 !! fs_key W (temp_path W "heideltime_" ".tmp" σ) = None.
Proof.
  intros Hdoc Hfree Hcodec Henc Hrun Hnodir.
  rewrite (parse_run doc self σ c b Hdoc Hfree Hcodec Henc).
  set (name := temp_path W "heideltime_" ".tmp" σ) in *.
  set (before := set_fs (<[fs_key W name := File b]> (fs σ)) σ).
  assert (Hfs := run_tagger_fs W self name before (SpawnError e) f Hrun).
  split.
  - rewrite try_finally_outcome by (apply unlink_ok; rewrite Hfs; exact Hnodir).
    unfold run_tagger, run. cbn [fs set_fs before]. rewrite Hrun. reflexivity.
  - rewrite try_finally_state. unfold unlink. rewrite Hfs.
    destruct (f !! fs_key W name) as [[content|]|] eqn:Hf; cbn [snd fs set_fs].
    + apply lookup_delete_eq.
    + contradiction.
    + rewrite ?Hfs. exact Hf.
Qed.

(** X16.  [parse] starts a process exactly when the text is not empty,
    the temporary file could be created and the text could be written to
    it; the command line is then the one built for that file. *)
Theorem process_started_iff doc self σ :
  invocations (parse W doc self σ).2
    = invocations σ ++ [build_cmd W self (temp_path W "heideltime_" ".tmp" σ)]
  <-> doc <> ""
      /\ fs σ !! fs_key W (temp_path W "heideltime_" ".tmp" σ) = None
      /\ exists c b, lookup_codec W (encoding self) = Ok c /\ codec_encode c doc = Some b.
Proof.
  assert (Hgrow : forall (l : list (list Arg)) x, l <> l ++ [x]).
  { intros l x Heq. apply (f_equal length) in Heq. rewrite length_app in Heq.
    cbn in Heq. lia. }
  set (name := temp_path W "heideltime_" ".tmp" σ).
  split.
  - intros Hlog.
    destruct (String.eqb_spec doc "") as [Hempty|Hdoc].
    { rewrite (parse_stops_early doc self σ) in Hlog by auto. apply Hgrow in Hlog as []. }
    destruct (fs σ !! fs_key W name) as [n|] eqn:Hfree.
    { rewrite (parse_stops_early doc self σ) in Hlog
        by (right; left; fold name; rewrite Hfree; discriminate).
      apply Hgrow in Hlog as []. }
    destruct (lookup_codec W (encoding self)) as [c|e] eqn:Hcodec.
    2:{ rewrite (parse_stops_early doc self σ) in Hlog by (right; right; eauto).
        apply Hgrow in Hlog as []. }
    destruct (codec_encode c doc) as [b|] eqn:Henc.
    + split; [exact Hdoc|]. split; [reflexivity|]. eauto.
    + assert (Htmp : NamedTemporaryFile W (encoding self) "heideltime_" ".tmp" σ
                     = (Ok (name, c), set_fs (<[fs_key W name := File []]> (fs σ)) σ)).
      { unfold NamedTemporaryFile. fold name. rewrite Hfree, Hcodec. reflexivity. }
      destruct (parse_write_failure W doc self σ name c _ Hdoc Htmp Henc) as [Hp _].
      rewrite Hp in Hlog. cbn in Hlog. apply Hgrow in Hlog as [].
  - intros (Hdoc & Hfree & c & b & Hcodec & Henc).
    rewrite (parse_run doc self σ c b Hdoc Hfree Hcodec Henc).
    rewrite try_finally_state, unlink_invocations, run_tagger_invocations. reflexivity.
Qed.

(** X17.  What the tagger is given: the fourth argument of the command
    line is the name of the temporary file, and when the process starts
    that file holds the text in the configured encoding. *)
Theorem tagger_reads_the_text doc self σ c b :
  doc <> "" ->
  fs σ !! fs_key W (temp_path W "heideltime_" ".tmp" σ) = None ->
  lookup_codec W (encoding self) = Ok c ->
  codec_encode c doc = Some b ->
  let name := temp_path W "heideltime_" ".tmp" σ in
  let before := set_fs (<[fs_key W name := File b]> (fs σ)) σ in
  build_cmd W self name !! 3%nat = Some (AStr name)
  /\ fs before !! fs_key W name = Some (File b)
  /\ (parse W doc self σ).1
     = (try_finally (run_tagger W self name) (unlink W name) before).1
  /\ (forall o f, run_child W (build_cmd W self name) (fs before) = (o, f) ->
      fs (parse W doc self σ).2 = fs (unlink W name (set_fs f before)).2).
Proof.
  intros Hdoc Hfree Hcodec Henc name before.
  rewrite (parse_run doc self σ c b Hdoc Hfree Hcodec Henc). fold name. fold before.
  split; [rewrite build_cmd_parts; reflexivity|].
  split; [apply lookup_insert_eq|]. split; [reflexivity|].
  intros o f Hrun. rewrite try_finally_state.
  assert (Hfs := run_tagger_fs W self name before o f Hrun).
  unfold unlink. rewrite Hfs. cbn [fs set_fs].
  destruct (f !! fs_key W name) as [[content|]|]; cbn [snd fs set_fs]; rewrite ?Hfs; reflexivity.
Qed.


End Runs.

(** ** Options on the command line *)

Section Options.
Context (W : World).

(** X19.  The command line has between 16 and 22 arguments: the sixteen
    fixed ones, one for each of [-v] and [-it], two for each of [-locale]
    and [-pos]. *)
Theorem command_length self tmp_file_path :
  length (build_cmd W self tmp_file_path)
  = (16 + (if truthy (verbosity self) then 1 else 0)
     + (if truthy (interval_tagger self) then 1 else 0)
     + (if truthy (locale self) then 2 else 0)
     + (if truthy (pos_tagger self) then 2 else 0))%nat
  /\ (16 <= length (build_cmd W self tmp_file_path) <= 22)%nat.
Proof.
  rewrite build_cmd_parts, length_app, required_args_length. unfold optional_args.
  destruct (truthy (verbosity self)), (truthy (interval_tagger self)),
    (truthy (locale self)), (truthy (pos_tagger self)); cbn; split; lia.
Qed.

(** X20.  The setters switch the optional arguments: after
    [set_verbosity b] the argument behind the fixed ones is [-v] exactly
    when [b] is true; after [set_pos_tagger] with a non-empty name the
    command line is the one of the empty name followed by [-pos] and the
    name, and with the empty name it carries nothing for the secondary
    tagger after the locale. *)
Theorem setters_switch_options self tmp_file_path name b :
  name <> "" ->
  (build_cmd W (set_verbosity b self).2 tmp_file_path !! 16%nat = Some (AStr "-v") <-> b = true)
  /\ build_cmd W (set_pos_tagger name self).2 tmp_file_path
     = build_cmd W (set_pos_tagger "" self).2 tmp_file_path ++ [AStr "-pos"; AStr name]
  /\ build_cmd W (set_pos_tagger "" self).2 tmp_file_path
     = required_args W self tmp_file_path
       ++ (if truthy (verbosity self) then [AStr "-v"] else [])
       ++ (if truthy (interval_tagger self) then [AStr "-it"] else [])
       ++ (if truthy (locale self) then [AStr "-locale"; AVal (locale self)] else []).
Proof.
  intros Hname. split; [|split].
  - rewrite build_cmd_parts. unfold optional_args. cbn [set_verbosity snd].
    destruct b; cbn.
    + split; reflexivity.
    + destruct (truthy (interval_tagger self)), (truthy (locale self)),
        (truthy (pos_tagger self)); cbn; split; discriminate.
  - rewrite !build_cmd_parts. unfold optional_args, required_args.
    cbn [set_pos_tagger snd pos_tagger with_pos_tagger verbosity interval_tagger locale
         java heidel lang doc_type output_type conf_heideltime encoding start_date].
    assert (Htruthy : truthy (VStr name) = true).
    { cbn. destruct name; [contradiction | reflexivity]. }
    rewrite Htruthy.
    destruct (truthy (verbosity self)), (truthy (interval_tagger self)),
      (truthy (locale self)); reflexivity.
  - rewrite build_cmd_parts. unfold optional_args, required_args.
    cbn [set_pos_tagger snd pos_tagger with_pos_tagger verbosity interval_tagger locale
         java heidel lang doc_type output_type conf_heideltime encoding start_date].
    destruct (truthy (verbosity self)), (truthy (interval_tagger self)),
      (truthy (locale self)); reflexivity.
Qed.
End Options.

(** ** The settings path *)

(** X21.  For a path that starts with a slash the flag of [set_config]
    makes no difference: joined with the tool path or taken as it is, the
    stored settings path is the given one. *)
Theorem set_config_absolute_path conf_path self :
  String.prefix "/" conf_path = true ->
  set_config conf_path false self = set_config conf_path true self
  /\ conf_heideltime (set_config conf_path false self).2 = Path conf_path.
Proof.
  intros Hslash. apply leading_slash_is_absolute in Hslash.
  unfold set_config, truediv. rewrite Hslash. split; reflexivity.
Qed.

(** ** The script *)

Section Script.
Context (W : World).

End Script.

(** ** The constructor and [set_time] *)

Section StartDate.
Context (W : World).

End StartDate.

(** ** The further properties at work *)

Module Instances.
Import Demo.

Lemma init_establishes_invariant_witness :
  validated default_wrapper = true
  /\ path_exists answering disk (heidel default_wrapper) = true.
Proof.
  destruct (init_establishes_invariant answering (CfgDict default_config) disk default_wrapper
              (Examples.init_default _)) as (Hval & Hpath & _).
  split; assumption.
Defined.

Lemma init_reads_options_witness :
  pos_tagger default_wrapper = VStr "no"
  /\ conf_heideltime default_wrapper = Path tool // "config.props"
  /\ start_date default_wrapper = mkDate 2025 3 16.
Proof.
  destruct (init_reads_options answering (CfgDict default_config) disk default_wrapper
              (Examples.init_default _))
    as (_ & _ & _ & _ & _ & Hpos & _ & _ & Hconf & _ & Hdate).
  split; [exact Hpos|]. split; [apply Hconf | apply Hdate]; vm_compute; reflexivity.
Defined.

Lemma init_validation_order_witness :
  exists msg, __init__ answering (CfgDict unruly) disk = Raise (ValueError msg)
              /\ String.prefix "Document type: " msg = true.
Proof.
  eexists. split.
  - refine (proj1 (init_validation_order answering disk unruly tool _ _ _ _) "blog" _ _).
    + vm_compute. reflexivity.
    + vm_compute. reflexivity.
    + vm_compute. reflexivity.
    + vm_compute. reflexivity.
    + vm_compute. reflexivity.
    + apply (proj1 (bool_decide_eq_false (lower "blog" ∈ AVAILABLE_DOCUMENT_TYPES))).
      vm_compute. reflexivity.
  - reflexivity.
Defined.

Lemma setters_keep_invariant_witness :
  validated (set_lang (VStr "German") default_wrapper).2 = true
  /\ validated (set_lang (VStr "Klingon") default_wrapper).2 = true.
Proof.
  destruct (setters_keep_invariant default_wrapper) as (Hlang & _).
  - vm_compute. reflexivity.
  - split; apply Hlang.
Defined.

Lemma setters_accept_stored_values_witness :
  set_lang (VStr "french") default_wrapper = (Ok tt, default_wrapper)
  /\ out_type (VStr "TIMEML") default_wrapper = (Ok tt, default_wrapper).
Proof.
  destruct (setters_accept_stored_values default_wrapper) as (Hlang & _ & Hout).
  - vm_compute. reflexivity.
  - split; [exact Hlang | exact Hout].
Defined.

Lemma formats_are_disjoint_witness : strptime_ymd "2025/03/16" = None.
Proof.
  apply (formats_are_disjoint "2025/03/16" (mkDate 2025 3 16)). vm_compute. reflexivity.
Defined.

Lemma parse_restores_file_system_witness :
  fs (parse answering "hello" (wrapper "ascii") disk).2 = fs disk
  /\ fs (parse crashing "hello" (wrapper "ascii") disk).2 = fs disk.
Proof.
  split.
  - refine (proj2 (parse_restores_file_system answering "hello" (wrapper "ascii") disk _) _).
    + intros cmd f. reflexivity.
    + intros c Hc. injection Hc as <-. vm_compute. discriminate.
  - refine (proj2 (parse_restores_file_system crashing "hello" (wrapper "ascii") disk _) _).
    + intros cmd f. reflexivity.
    + intros c Hc. injection Hc as <-. vm_compute. discriminate.
Defined.

Lemma parse_spawn_error_witness :
  (parse no_runtime "hello" (wrapper "ascii") disk).1 = Raise (Builtin "FileNotFoundError")
  /\ fs (parse no_runtime "hello" (wrapper "ascii") disk).2 !! tmp = None.
Proof.
  refine (parse_spawn_error no_runtime "hello" (wrapper "ascii") disk ascii_codec
            (list_byte_of_string "hello") (Builtin "FileNotFoundError")
            (<[tmp := File (list_byte_of_string "hello")]> (fs disk)) _ _ _ _ _ _).
  - discriminate.
  - vm_compute. reflexivity.
  - reflexivity.
  - vm_compute. reflexivity.
  - reflexivity.
  - vm_compute. discriminate.
Defined.

Lemma tagger_reads_the_text_witness :
  build_cmd answering (wrapper "ascii") tmp !! 3%nat = Some (AStr tmp)
  /\ fs written !! tmp = Some (File (list_byte_of_string "hello")).
Proof.
  destruct (tagger_reads_the_text answering "hello" (wrapper "ascii") disk ascii_codec
              (list_byte_of_string "hello")) as (Hcmd & Hfile & _).
  - discriminate.
  - vm_compute. reflexivity.
  - reflexivity.
  - vm_compute. reflexivity.
  - split; [exact Hcmd | exact Hfile].
Defined.


Lemma setters_switch_options_witness :
  build_cmd answering (set_pos_tagger "treetagger" default_wrapper).2 tmp
  = build_cmd answering (set_pos_tagger "" default_wrapper).2 tmp
    ++ [AStr "-pos"; AStr "treetagger"].
Proof.
  refine (proj1 (proj2 (setters_switch_options answering default_wrapper tmp "treetagger" true _))).
  discriminate.
Defined.

Lemma set_config_absolute_path_witness :
  set_config "/etc/heideltime/config.props" false default_wrapper
  = set_config "/etc/heideltime/config.props" true default_wrapper.
Proof.
  refine (proj1 (set_config_absolute_path "/etc/heideltime/config.props" default_wrapper _)).
  reflexivity.
Defined.


Lemma command_date_is_not_an_input_witness :
  strftime_Ymd answering (mkDate 2025 3 16) = "2025-03-16"
  /\ set_time (strftime_Ymd answering (mkDate 2025 3 16)) older
     = (Raise (ValueError "doc_time must be in format 'YYYY/MM/DD or YY/MM/DD'"), older).
Proof.
  split; [reflexivity|].
  refine (proj2 (proj2 (command_date_is_not_an_input answering (mkDate 2025 3 16) older _))).
  cbn. lia.
Defined.

End Instances.
